(** * ASL sign-language recognition service: [app/app.py]

    A shallow embedding of the Flask application in [src/app/app.py]
    ([load_model], [preprocess_image], [predict], [classify_image]) and the
    properties of its request handling.

    Conventions of the embedding:
    - a Python exception is a value of [pyexc]; code that may raise returns
      [result A];
    - the two module globals [model] and [LABEL_MAP] live in an explicit
      store that the handlers thread through, next to a log of the calls a
      request makes to [preprocess_image] and [model.predict];
    - NumPy arrays are nested lists; a [uint8] element is a [Byte.byte], a
      floating-point element is a binary64 [float] (Rocq's primitive floats),
      a [bytes] object is a [list byte], a [str] is a [string];
    - the libraries the file imports and that are not part of the repository
      (OpenCV's codec and interpolation, [base64], Keras) are interfaces
      ([Class]es); a reference implementation of each follows the handlers,
      so that every statement can be run on concrete inputs. *)

From Stdlib Require Import ZArith Strings.String Strings.Ascii Strings.Byte Floats.
From stdpp Require Import base option list gmap strings.

Local Set Warnings "-register-all".
Local Open Scope string_scope.

(** ** Exceptions and fallible computations *)

Inductive pyexc : Set :=
| AttributeError   (* attribute lookup on an object that lacks it *)
| ValueError       (* unpacking a list of the wrong length, argmax of an empty array, ... *)
| NameError        (* a global that was never assigned *)
| OSError          (* the model artifact cannot be read *)
| binascii_Error   (* [base64.b64decode] on a malformed payload *)
| cv2_error.       (* an OpenCV assertion failed *)

Inductive result (A : Type) : Type :=
| Ok (a : A)
| Raise (e : pyexc).
Arguments Ok {A} a.
Arguments Raise {A} e.

#[global] Instance result_ret : MRet result := λ A, @Ok A.
#[global] Instance result_bind : MBind result := λ A B f r,
  match r with Ok a => f a | Raise e => Raise e end.

Definition is_Ok {A} (r : result A) : bool :=
  match r with Ok _ => true | Raise _ => false end.

(** The spec's error taxonomy calls [DecodeError] the failure of turning the
    payload into an image: the base64 payload is malformed, or the bytes are
    not an image.  In the code these are [binascii.Error] and [cv2.error]. *)
Definition DecodeError (e : pyexc) : Prop := e = binascii_Error ∨ e = cv2_error.

(** ** Python values that reach the handlers *)

(** [werkzeug.datastructures.FileStorage]: the name the client sent and the
    bytes [read()] returns.  Its truth value is that of its filename. *)
Record FileStorage : Type := { filename : string; stream : list byte }.

Inductive pyobj : Type :=
| PyNone
| PyBool (b : bool)
| PyInt (n : Z)
| PyFloat (x : float)
| PyStr (s : string)
| PyList (l : list pyobj)
| PyDict (d : list (string * pyobj))
| PyFile (f : FileStorage).

(** [bool(x)], as [not file] uses it. *)
Definition truthy (x : pyobj) : bool :=
  match x with
  | PyNone => false
  | PyBool b => b
  | PyInt n => negb (n =? 0)%Z
  | PyFloat x => negb (x =? 0)%float
  | PyStr s => negb (String.eqb s "")
  | PyList l => match l with [] => false | _ => true end
  | PyDict d => match d with [] => false | _ => true end
  | PyFile f => negb (String.eqb (filename f) "")
  end.

(** [isinstance(data, str) and data.startswith(marker)]: the string itself
    when the test holds, [None] when it does not. *)
Definition isinstance_str_startswith (data : pyobj) (marker : string) : option string :=
  match data with
  | PyStr s => if String.prefix marker s then Some s else None
  | _ => None
  end.

(** Lookup in an association list, first binding: [dict.get] on a parsed
    JSON object and [MultiDict.get] on [request.files]. *)
Fixpoint assoc {A} (k : string) (d : list (string * A)) : option A :=
  match d with
  | [] => None
  | (k', v) :: d' => if String.eqb k k' then Some v else assoc k d'
  end.

(** [data.get(key)]: only a dict has the method. *)
Definition py_get (data : pyobj) (key : string) : result pyobj :=
  match data with
  | PyDict d => Ok (default PyNone (assoc key d))
  | _ => Raise AttributeError
  end.

(** [data.read()]: only the upload has the method. *)
Definition py_read (data : pyobj) : result (list byte) :=
  match data with
  | PyFile f => Ok (stream f)
  | _ => Raise AttributeError
  end.

(** [s.split(sep, 1)]: at most one split, at the first separator. *)
Fixpoint split_first (sep : ascii) (s : string) : option (string * string) :=
  match s with
  | EmptyString => None
  | String c s' =>
      if Ascii.eqb c sep then Some (EmptyString, s')
      else match split_first sep s' with
           | Some (h, t) => Some (String c h, t)
           | None => None
           end
  end.

Definition str_split_1 (s : string) (sep : ascii) : list string :=
  match split_first sep s with
  | Some (h, t) => [h; t]
  | None => [s]
  end.

(** [a, b = xs] *)
Definition unpack2 {A} (xs : list A) : result (A * A) :=
  match xs with
  | [a; b] => Ok (a, b)
  | _ => Raise ValueError
  end.

(** ** NumPy arrays *)

(** Arrays are nested lists in row-major order.  An image is
    rows x columns x channels of [uint8]; the network's input is
    batch x rows x columns x channels of binary64. *)
Abbreviation image := (list (list (list byte))).
Abbreviation tensor := (list (list (list (list float)))).

Definition has_shape2 {A} (n0 n1 : nat) (a : list (list A)) : Prop :=
  length a = n0 ∧ Forall (λ r, length r = n1) a.
Definition has_shape3 {A} (n0 n1 n2 : nat) (a : list (list (list A))) : Prop :=
  length a = n0 ∧ Forall (has_shape2 n1 n2) a.
Definition has_shape4 {A} (n0 n1 n2 n3 : nat) (a : list (list (list (list A)))) : Prop :=
  length a = n0 ∧ Forall (has_shape3 n1 n2 n3) a.

(** Every element of a four-dimensional array satisfies [P]. *)
Definition Forall4 {A} (P : A → Prop) (a : list (list (list (list A)))) : Prop :=
  Forall (Forall (Forall (Forall P))) a.

(** [float(v)] for a [uint8] value [v]. *)
Definition float_of_byte (v : byte) : float :=
  PrimFloat.of_uint63 (Uint63.of_Z (Z.of_N (Byte.to_N v))).

(** [img / 255.0]: elementwise true division, the result is a float64 array. *)
Definition np_divide (img : image) (d : float) : list (list (list float)) :=
  map (map (map (λ v, (float_of_byte v / d)%float))) img.

(** What [v / 255.0] is, said without [np_divide]: [x] is [num / den]
    rounded to binary64 when it is zero for a zero [num], and otherwise a
    positive normal number [m * 2^e], [m] of 53 bits, within half a unit
    in the last place of the exact quotient. *)
Definition rounds_quotient (num den : Z) (x : float) : bool :=
  match Prim2SF x with
  | S754_zero false => (num =? 0)%Z
  | S754_finite false m e =>
      (2 ^ 52 <=? Z.pos m)%Z && (Z.pos m <? 2 ^ 53)%Z && (e <? 0)%Z
      && (2 * Z.abs (Z.pos m * den - num * 2 ^ (- e)) <=? den)%Z
  | _ => false
  end.

(** The float [x] is the pixel value [v] divided by 255: it is the IEEE
    quotient of the two numbers, it is the exact quotient correctly
    rounded, and multiplied by 255 it gives the pixel value back. *)
Definition quotient_by_255 (v : byte) (x : float) : Prop :=
  x = (PrimFloat.of_uint63 (Uint63.of_Z (Z.of_N (Byte.to_N v))) / 255)%float ∧
  rounds_quotient (Z.of_N (Byte.to_N v)) 255 x = true ∧
  (x * 255 =? PrimFloat.of_uint63 (Uint63.of_Z (Z.of_N (Byte.to_N v))))%float = true.

(** [np.expand_dims(img, axis=0)] *)
Definition expand_dims_0 {A} (img : A) : list A := [img].

(** ** The libraries behind [preprocess_image] *)

(** The [base64] module: [b64decode] on a [str], and [b64encode] with its
    result read as a [str]; decoding what was encoded gives the bytes back. *)
Class Base64 : Type := {
  b64decode : string → result (list byte);
  b64encode : list byte → string;
  b64decode_b64encode : ∀ bs, b64decode (b64encode bs) = Ok bs
}.

(** OpenCV.  [imdecode buf] is [cv2.imdecode(buf, cv2.IMREAD_COLOR)]: [None]
    when the buffer holds no image it can read, otherwise an 8-bit image of
    three channels in B, G, R order and with at least one row and one column.
    [resize img (w, h)] is [cv2.resize(img, (w, h))]: on a non-empty image
    it returns an image of [h] rows and [w] columns with the channels of
    its argument.  The two laws are what OpenCV's documentation promises of
    them; how the pixels are computed is left open.  (Some OpenCV versions
    raise [cv2.error] in [imdecode] itself on an empty buffer; [None] stands
    for that too, since the next line raises the same exception on [None].) *)
Class OpenCV : Type := {
  imdecode : list byte → option image;
  resize : image → nat * nat → result image;
  imdecode_color : ∀ buf img,
    imdecode buf = Some img → ∃ h w, 0 < h ∧ 0 < w ∧ has_shape3 h w 3 img;
  resize_shape : ∀ img h w c dw dh,
    has_shape3 h w c img → 0 < h → 0 < w → 0 < c ≤ 4 → 0 < dw → 0 < dh →
    ∃ out, resize img (dw, dh) = Ok out ∧ has_shape3 dh dw c out
}.

(** [cv2.cvtColor(img, cv2.COLOR_BGR2RGB)].  OpenCV asserts that the source
    is not empty, so [None] (what a failed [imdecode] returns) raises
    [cv2.error]; a pixel of three channels has its first and third swapped,
    one of four channels loses its alpha. *)
Definition bgr2rgb (px : list byte) : result (list byte) :=
  match px with
  | [b; g; r] => Ok [r; g; b]
  | [b; g; r; _] => Ok [r; g; b]
  | _ => Raise cv2_error
  end.

Definition mat_empty (img : image) : bool :=
  match img with
  | [] | [] :: _ => true
  | _ => false
  end.

Definition cvtColor_BGR2RGB (img : option image) : result image :=
  match img with
  | None => Raise cv2_error
  | Some a => if mat_empty a then Raise cv2_error else mapM (mapM bgr2rgb) a
  end.

(** ** [preprocess_image] (app.py, lines 23-43) *)

Section preprocess.
Context `{!Base64, !OpenCV}.

Definition preprocess_image (data : pyobj) (target_size : nat * nat) : result tensor :=
  img ← match isinstance_str_startswith data "data:image" with
        | Some data =>
            '(header, encoded) ← unpack2 (str_split_1 data ",");
            image_bytes ← b64decode encoded;
            let nparr := image_bytes in
            mret (imdecode nparr)
        | None =>
            file_bytes ← py_read data;
            let nparr := file_bytes in
            mret (imdecode nparr)
        end;
  img ← cvtColor_BGR2RGB img;
  img ← resize img target_size;
  let img := np_divide img 255 in
  let img := expand_dims_0 img in
  mret img.

(** The default of the parameter [target_size]. *)
Definition default_target_size : nat * nat := (224, 224).

(** Lines 36-43 on their own: what either branch hands its decoded image
    to.  [preprocess_image_branches] relates it to [preprocess_image]. *)
Definition convert_resize_normalise (target_size : nat * nat) (img : option image)
  : result tensor :=
  img ← cvtColor_BGR2RGB img;
  img ← resize img target_size;
  mret (expand_dims_0 (np_divide img 255)).
End preprocess.

(** ** NumPy's [argmax] *)

(** [np.argmax(a)] without an axis works on the flattened array and returns
    the index of the first occurrence of the maximum; a NaN counts as
    maximal, and an empty array raises [ValueError].  [argmax_loop] is
    NumPy's scan: [mp] is the running maximum, [max_ind] its index, [i] the
    index of the head of [ip]. *)
Fixpoint argmax_loop (ip : list float) (i : nat) (mp : float) (max_ind : nat) : nat :=
  match ip with
  | [] => max_ind
  | x :: ip' =>
      if negb (x <=? mp)%float then
        if PrimFloat.is_nan x then i else argmax_loop ip' (S i) x i
      else argmax_loop ip' (S i) mp max_ind
  end.

Definition np_argmax (a : list (list float)) : result nat :=
  match concat a with
  | [] => Raise ValueError
  | mp :: ip => Ok (if PrimFloat.is_nan mp then 0 else argmax_loop ip 1 mp 0)
  end.

(** ** The module globals and the handlers' monad *)

(** The Keras model: all the application uses of it is [model.predict], from
    a batch of images to a batch of score vectors. *)
Record Model : Type := { model_predict : tensor → result (list (list float)) }.

(** [tf.keras.models.load_model(path)] *)
Class Keras : Type := {
  keras_load_model : string → result Model
}.

(** The two globals of the module; [None] is a name not assigned yet. *)
Record globals : Type := {
  model : option Model;
  LABEL_MAP : option (gmap Z string)
}.

(** What a request is seen to call. *)
Inductive call : Type :=
| call_preprocess_image (data : pyobj)
| call_model_predict (img : tensor).

Record world : Type := { glob : globals; calls : list call }.

(** A handler runs from a world to an outcome and a world; an exception
    leaves the world as it was when it was raised. *)
Definition handler (A : Type) : Type := world → result A * world.

#[global] Instance handler_ret : MRet handler := λ A a w, (Ok a, w).
#[global] Instance handler_bind : MBind handler := λ A B f m w,
  match m w with
  | (Ok a, w') => f a w'
  | (Raise e, w') => (Raise e, w')
  end.

Definition lift {A} (r : result A) : handler A := λ w, (r, w).

(** Reading a global: [NameError] when it was never assigned. *)
Definition read_global {A} (name : globals → option A) : handler A := λ w,
  match name (glob w) with
  | Some v => (Ok v, w)
  | None => (Raise NameError, w)
  end.

Definition write_model (m : Model) : handler unit := λ w,
  (Ok (), {| glob := {| model := Some m; LABEL_MAP := LABEL_MAP (glob w) |};
             calls := calls w |}).

Definition write_LABEL_MAP (d : gmap Z string) : handler unit := λ w,
  (Ok (), {| glob := {| model := model (glob w); LABEL_MAP := Some d |};
             calls := calls w |}).

(** A call that the log records before it runs. *)
Definition invoke {A} (c : call) (r : result A) : handler A := λ w,
  (r, {| glob := glob w; calls := (calls w ++ [c])%list |}).

(** A response: the JSON body and the status code. *)
Record response : Type := { body : pyobj; status : Z }.

(** [jsonify(d)] answers 200; [return jsonify(d), code] answers [code]. *)
Definition jsonify (d : list (string * pyobj)) : response :=
  {| body := PyDict d; status := 200 |}.
Definition with_status (r : response) (code : Z) : response :=
  {| body := body r; status := code |}.

(** ** [load_model] (app.py, lines 15-20) *)

Definition ascii_uppercase : string := "ABCDEFGHIJKLMNOPQRSTUVWXYZ".

(** Iterating a [str] yields its characters as strings of length one. *)
Definition str_iter (s : string) : list string :=
  map (λ c, String c EmptyString) (list_ascii_of_string s).

Definition enumerate {A} (l : list A) : list (Z * A) :=
  imap (λ i x, (Z.of_nat i, x)) l.

(** The last character of a string, if it has one. *)
Fixpoint str_last (s : string) : option ascii :=
  match s with
  | EmptyString => None
  | String c EmptyString => Some c
  | String _ s' => str_last s'
  end.

(** [os.path.join(a, b)] (POSIX): an absolute [b] replaces [a]; otherwise
    [b] is appended to [a], after a "/" unless [a] is empty or ends with
    one. *)
Definition os_path_join (a b : string) : string :=
  if String.prefix "/" b then b
  else match str_last a with
       | None => b
       | Some c => if Ascii.eqb c "/" then a ++ b else a ++ "/" ++ b
       end.

(** [{k: v for k, v in kvs}]: bindings are inserted in order. *)
Definition dict_comprehension (kvs : list (Z * string)) : gmap Z string :=
  fold_left (λ d kv, <[kv.1 := kv.2]> d) kvs ∅.

Section handlers.
Context `{!Base64, !OpenCV, !Keras}.

(** [dirname] is [os.path.dirname(__file__)]; the [print] is not modelled. *)
Definition load_model (dirname : string) : handler unit :=
  let model_path := os_path_join dirname "../models/asl_cnn_model.h5" in
  m ← lift (keras_load_model model_path);
  write_model m;;
  write_LABEL_MAP (dict_comprehension (enumerate (str_iter ascii_uppercase))).

(** ** The HTTP handlers (app.py, lines 49-68) *)

(** [/predict].  [json] is what [request.get_json()] returned on line 51.
    A request whose body [get_json] refuses (it aborts with 400 on a body
    that does not parse, and with 415 on a content type that is not JSON)
    is answered by Flask there and never reaches line 52: such requests
    are outside this definition, which starts where [get_json] has
    returned. *)
Definition predict (json : pyobj) : handler response :=
  let data := json in
  image_data ← lift (py_get data "image");
  img ← invoke (call_preprocess_image image_data)
               (preprocess_image image_data default_target_size);
  m ← read_global model;
  preds ← invoke (call_model_predict img) (model_predict m img);
  index ← lift (np_argmax preds);
  let index := Z.of_nat index in
  d ← read_global LABEL_MAP;
  let letter := default "?" (d !! index) in
  mret (jsonify [("prediction", PyStr letter)]).

(** [/classify_image].  [files] is [request.files]. *)
Definition classify_image (files : list (string * FileStorage)) : handler response :=
  let file := from_option PyFile PyNone (assoc "image" files) in
  if negb (truthy file) then
    mret (with_status (jsonify [("error", PyStr "No image provided")]) 400)
  else
    img ← invoke (call_preprocess_image file)
                 (preprocess_image file default_target_size);
    m ← read_global model;
    preds ← invoke (call_model_predict img) (model_predict m img);
    index ← lift (np_argmax preds);
    let index := Z.of_nat index in
    d ← read_global LABEL_MAP;
    let letter := default "?" (d !! index) in
    mret (jsonify [("prediction", PyStr letter)]).
End handlers.

(** ** Requests *)

(** Requests as Flask routes them: [@app.route('/predict', methods=['POST'])]
    and [@app.route('/classify_image', methods=['POST'])]. *)
Inductive request : Type :=
| POST_predict (json : pyobj)
| POST_classify_image (files : list (string * FileStorage)).

Definition dispatch `{!Base64, !OpenCV} (r : request) : handler response :=
  match r with
  | POST_predict json => predict json
  | POST_classify_image files => classify_image files
  end.

(** The status the client sees: Flask answers 500 when a view raises. *)
Definition http_status (r : result response) : Z :=
  match r with
  | Ok resp => status resp
  | Raise _ => 500
  end.

(** The object a request hands to [preprocess_image]: the [image] member of
    the JSON body on [/predict], the uploaded file that passed the check of
    line 62 on [/classify_image]. *)
Inductive submits : request → pyobj → Prop :=
| submits_json json image_data :
    py_get json "image" = Ok image_data →
    submits (POST_predict json) image_data
| submits_file files f :
    assoc "image" files = Some f →
    truthy (PyFile f) = true →
    submits (POST_classify_image files) (PyFile f).

(** A handler that leaves the globals alone. *)
Definition frames {A} (h : handler A) : Prop := ∀ w, glob (h w).2 = glob w.

(** The raw bytes an input carries, in either encoding: a data URL (a
    header that starts with the marker and holds no comma, a comma, a base64
    payload) carries what its payload decodes to, an upload carries what
    [read()] returns. *)
Inductive carries `{!Base64} : pyobj → list byte → Prop :=
| carries_data_url header payload bs :
    String.prefix "data:image" header = true →
    ","%char ∉ list_ascii_of_string header →
    b64decode payload = Ok bs →
    carries (PyStr (header ++ "," ++ payload)) bs
| carries_upload f :
    carries (PyFile f) (stream f).

(** ** Reference implementations of the libraries *)

(** *** base64, after CPython's [binascii.a2b_base64] in its default mode *)

Definition byte_of_Z (z : Z) : byte :=
  default x00 (Byte.of_N (Z.to_N (Z.land z 255))).

(** The value of a character of the base64 alphabet. *)
Definition b64_value (c : ascii) : option Z :=
  let n := Z.of_N (N_of_ascii c) in
  if (65 <=? n)%Z && (n <=? 90)%Z then Some (n - 65)%Z
  else if (97 <=? n)%Z && (n <=? 122)%Z then Some (n - 71)%Z
  else if (48 <=? n)%Z && (n <=? 57)%Z then Some (n + 4)%Z
  else if (n =? 43)%Z then Some 62%Z
  else if (n =? 47)%Z then Some 63%Z
  else None.

(** The decoder's loop: [quad_pos] counts the characters of the current
    group of four, [leftchar] holds the bits not yet written, [pads] the
    padding characters seen since the last data character.  Characters
    outside the alphabet are skipped; a complete padding ends the input. *)
Fixpoint a2b_base64 (s : string) (quad_pos : nat) (leftchar : Z) (pads : nat)
  : result (list byte) :=
  match s with
  | EmptyString =>
      match quad_pos with
      | 0 => Ok []
      | _ => Raise binascii_Error
      end
  | String c s' =>
      if Ascii.eqb c "=" then
        if (2 <=? quad_pos)%nat && (4 <=? quad_pos + S pads)%nat then Ok []
        else a2b_base64 s' quad_pos leftchar (if (2 <=? quad_pos)%nat then S pads else pads)
      else
        match b64_value c with
        | None => a2b_base64 s' quad_pos leftchar pads
        | Some this_ch =>
            match quad_pos with
            | 0 => a2b_base64 s' 1 this_ch 0
            | 1 =>
                bs ← a2b_base64 s' 2 (Z.land this_ch 15) 0;
                mret (byte_of_Z (Z.lor (Z.shiftl leftchar 2) (Z.shiftr this_ch 4)) :: bs)
            | 2 =>
                bs ← a2b_base64 s' 3 (Z.land this_ch 3) 0;
                mret (byte_of_Z (Z.lor (Z.shiftl leftchar 4) (Z.shiftr this_ch 2)) :: bs)
            | _ =>
                bs ← a2b_base64 s' 0 0%Z 0;
                mret (byte_of_Z (Z.lor (Z.shiftl leftchar 6) this_ch) :: bs)
            end
        end
  end.

(** [base64.b64decode(s)] for a [str]: the string is encoded as ASCII
    first, which raises [ValueError] on any other character. *)
Definition py_b64decode (s : string) : result (list byte) :=
  if forallb (λ c, (N_of_ascii c <? 128)%N) (list_ascii_of_string s)
  then a2b_base64 s 0 0%Z 0
  else Raise ValueError.

Definition Z_of_byte (b : byte) : Z := Z.of_N (Byte.to_N b).

Definition b64_alphabet : string :=
  "ABCDEFGHIJKLMNOPQRSTUVWXYZabcdefghijklmnopqrstuvwxyz0123456789+/".

(** The character of a sextet. *)
Definition b64_char (v : Z) : ascii :=
  default "A"%char (list_ascii_of_string b64_alphabet !! Z.to_nat v).

(** The encoder, after [binascii.b2a_base64]: three bytes give four
    characters, a shorter last group is padded with "=". *)
Fixpoint b2a_base64 (bs : list byte) : string :=
  match bs with
  | [] => ""
  | [a] =>
      let x := Z_of_byte a in
      String (b64_char (Z.shiftr x 2))
        (String (b64_char (Z.shiftl (Z.land x 3) 4)) "==")
  | [a; b] =>
      let x := Z_of_byte a in
      let y := Z_of_byte b in
      String (b64_char (Z.shiftr x 2))
        (String (b64_char (Z.lor (Z.shiftl (Z.land x 3) 4) (Z.shiftr y 4)))
           (String (b64_char (Z.shiftl (Z.land y 15) 2)) "="))
  | a :: b :: c :: bs' =>
      let x := Z_of_byte a in
      let y := Z_of_byte b in
      let z := Z_of_byte c in
      String (b64_char (Z.shiftr x 2))
        (String (b64_char (Z.lor (Z.shiftl (Z.land x 3) 4) (Z.shiftr y 4)))
           (String (b64_char (Z.lor (Z.shiftl (Z.land y 15) 2) (Z.shiftr z 6)))
              (String (b64_char (Z.land z 63)) (b2a_base64 bs'))))
  end.

(** The 256 bytes, to settle facts about one or two bytes by enumeration. *)
Definition all_bytes : list byte :=
  Eval vm_compute in omap (λ n, Byte.of_N (N.of_nat n)) (seq 0 256).

#[local] Instance byte_eq_decision : EqDecision byte := Byte.byte_eq_dec.

(** A value is a usable sextet: its character decodes back to it, is not
    the padding character, and is ASCII. *)
Definition sextet_ok (v : Z) : bool :=
  bool_decide (b64_value (b64_char v) = Some v)
  && negb (Ascii.eqb (b64_char v) "=")
  && (N_of_ascii (b64_char v) <? 128)%N.

(** *** A codec and an interpolation to run the examples with *)

(** A headerless stand-in for OpenCV's codecs: the first two bytes are the
    numbers of rows and columns, the rest the pixels in row-major B, G, R
    order; anything else is not an image. *)
Definition raw_imdecode (buf : list byte) : option image :=
  match buf with
  | hb :: wb :: px =>
      let h := N.to_nat (Byte.to_N hb) in
      let w := N.to_nat (Byte.to_N wb) in
      if (0 <? h)%nat && (0 <? w)%nat && (length px =? h * w * 3)%nat then
        Some (map (λ i, map (λ j, take 3 (drop ((i * w + j) * 3) px)) (seq 0 w)) (seq 0 h))
      else None
  | _ => None
  end.

(** Nearest-neighbour interpolation ([cv2.INTER_NEAREST]): the pixel at
    row [y] and column [x] of the result is the one at row [y * h / dh] and
    column [x * w / dw] of the source. *)
Definition nearest_resize (img : image) (dsize : nat * nat) : result image :=
  let '(dw, dh) := dsize in
  let h := length img in
  let w := length (default [] (head img)) in
  if mat_empty img || (dw =? 0)%nat || (dh =? 0)%nat then Raise cv2_error
  else Ok (map (λ y, map (λ x, default [] (default [] (img !! (y * h / dh)) !! (x * w / dw)))
                         (seq 0 dw))
               (seq 0 dh)).

(** A model that answers every batch with the same score vector. *)
Definition stub_model (scores : list float) : Model :=
  {| model_predict := λ _, Ok [scores] |}.

(** An artifact store in which every path holds the model [m]. *)
Definition stub_keras (m : Model) : Keras := {| keras_load_model := λ _, Ok m |}.

(** The vector with a one at [i] and zeros elsewhere. *)
Definition one_hot (n i : nat) : list float :=
  map (λ j, if (j =? i)%nat then 1%float else 0%float) (seq 0 n).

(** *** Sample inputs *)

(** A process that has not run [load_model] yet. *)
Definition fresh_world : world :=
  {| glob := {| model := None; LABEL_MAP := None |}; calls := [] |}.

(** A one-pixel image in the stand-in format, as an upload and as a data
    URL of the same five bytes. *)
Definition pixel_bytes : list byte := [x01; x01; x0a; x14; x1e].
Definition pixel_upload : FileStorage :=
  {| filename := "hand.raw"; stream := pixel_bytes |}.
Definition pixel_data_url : string := "data:image/raw;base64,AQEKFB4=".

(** The process after [load_model] found a stub model answering [scores]. *)
Definition started_world (scores : list float) : world :=
  (@load_model (stub_keras (stub_model scores)) "/srv/app" fresh_world).2.

(** An upload whose bytes are not an image, and one without a filename. *)
Definition text_upload : FileStorage :=
  {| filename := "notes.txt"; stream := [x68; x69] |}.
Definition unnamed_upload : FileStorage :=
  {| filename := ""; stream := pixel_bytes |}.

(** ** Vocabulary of the further properties *)

(** Lines 54-57 (and 65-68) as a function of the globals and the tensor:
    what a request answers once its image is preprocessed. *)
Definition infer_label (g : globals) (img : tensor) : result response :=
  m ← from_option Ok (Raise NameError) (model g);
  preds ← model_predict m img;
  index ← np_argmax preds;
  d ← from_option Ok (Raise NameError) (LABEL_MAP g);
  mret (jsonify [("prediction", PyStr (default "?" (d !! Z.of_nat index)))]).

(** The world after a run of requests, handled one after another. *)
Definition after_requests `{!Base64, !OpenCV} (reqs : list request) (w : world) : world :=
  foldl (λ w r, (dispatch r w).2) w reqs.

(** An artifact store in which no path holds a model. *)
Definition missing_keras : Keras := {| keras_load_model := λ _, Raise OSError |}.

(** A one-pixel image of pure blue (B, G, R = 255, 0, 0). *)
Definition blue_pixel_bytes : list byte := [x01; x01; xff; x00; x00].

(** * Properties *)

(** ** Order facts of binary64 comparisons *)

Lemma SFcompare_antisym (x y : spec_float) :
  SFcompare y x = CompOpp <$> SFcompare x y.
Proof.
  destruct x as [[]| []| |[] m1 e1], y as [[]| []| |[] m2 e2]; simpl; try reflexivity.
  all: f_equal; rewrite (Z.compare_antisym e1 e2).
  all: change (PosDef.Pos.compare_cont Eq m2 m1) with (m2 ?= m1)%positive.
  all: change (PosDef.Pos.compare_cont Eq m1 m2) with (m1 ?= m2)%positive.
  all: rewrite (Pos.compare_antisym m1 m2).
  all: destruct (e1 ?= e2)%Z; simpl; try reflexivity.
  all: by rewrite CompOpp_involutive.
Qed.

Lemma SFcompare_refl (x y : spec_float) c :
  SFcompare x y = Some c → SFcompare x x = Some Eq.
Proof.
  destruct x as [[]| []| |[] m1 e1]; simpl; try done.
  all: intros _; rewrite Z.compare_refl; f_equal.
  all: change (PosDef.Pos.compare_cont Eq m1 m1) with (m1 ?= m1)%positive.
  all: by rewrite Pos.compare_refl.
Qed.

Section float_order.
Implicit Types x y : float.
Local Open Scope float_scope.

Lemma ltb_leb x y : (x <? y) = true → (x <=? y) = true.
Proof.
  rewrite FloatAxioms.ltb_spec, FloatAxioms.leb_spec. unfold SFltb, SFleb.
  by destruct (SFcompare _ _) as [[]|].
Qed.

Lemma ltb_not_leb x y : (x <? y) = true → (y <=? x) = false.
Proof.
  rewrite FloatAxioms.ltb_spec, FloatAxioms.leb_spec. unfold SFltb, SFleb.
  rewrite (SFcompare_antisym (Prim2SF x) (Prim2SF y)).
  by destruct (SFcompare _ _) as [[]|].
Qed.

Lemma leb_neq_ltb x y : (x <=? y) = true → (x =? y) = false → (x <? y) = true.
Proof.
  rewrite FloatAxioms.ltb_spec, FloatAxioms.leb_spec, FloatAxioms.eqb_spec.
  unfold SFltb, SFleb, SFeqb.
  by destruct (SFcompare _ _) as [[]|].
Qed.

Lemma leb_not_nan x y : (x <=? y) = true → is_nan x = false.
Proof.
  unfold is_nan. rewrite FloatAxioms.leb_spec, FloatAxioms.eqb_spec.
  unfold SFleb, SFeqb.
  destruct (SFcompare (Prim2SF x) (Prim2SF y)) as [c|] eqn:E; [|done].
  by rewrite (SFcompare_refl _ _ _ E).
Qed.

Lemma ltb_not_nan x y : (x <? y) = true → is_nan x = false.
Proof. intros H. by eapply leb_not_nan, ltb_leb. Qed.
End float_order.

(** ** [np.argmax] returns the first index of the maximum *)

Section argmax.

(** Once the running maximum dominates the rest, its index is the answer. *)
Lemma argmax_loop_keep ip i mp max_ind :
  Forall (λ x, (x <=? mp)%float = true) ip → argmax_loop ip i mp max_ind = max_ind.
Proof.
  intros H. revert i. induction H as [|x ip Hx _ IH]; intros i; simpl; [done|].
  rewrite Hx. simpl. apply IH.
Qed.

(** While the running maximum is below [m], the scan moves on to the first
    occurrence of [m]. *)
Lemma argmax_loop_find pre m post i mp max_ind :
  (mp <? m)%float = true →
  Forall (λ x, (x <? m)%float = true) pre →
  Forall (λ x, (x <=? m)%float = true) post →
  argmax_loop (pre ++ m :: post)%list i mp max_ind = i + length pre.
Proof.
  intros Hmp Hpre Hpost. revert i mp max_ind Hmp.
  induction Hpre as [|x pre Hx _ IH]; intros i mp max_ind Hmp; simpl.
  - rewrite (ltb_not_leb _ _ Hmp); simpl.
    destruct (is_nan m); [lia|].
    rewrite argmax_loop_keep by done. lia.
  - destruct (x <=? mp)%float; simpl.
    + rewrite IH by done. lia.
    + rewrite (ltb_not_nan _ _ Hx), IH by done. lia.
Qed.

Lemma np_argmax_first_max (a : list (list float)) pre m post :
  concat a = (pre ++ m :: post)%list →
  Forall (λ x, (x <? m)%float = true) pre →
  Forall (λ x, (x <=? m)%float = true) post →
  np_argmax a = Ok (length pre).
Proof.
  intros Ha Hpre Hpost. unfold np_argmax. rewrite Ha.
  destruct Hpre as [|x pre Hx Hpre]; simpl.
  - destruct (is_nan m); [done|]. by rewrite argmax_loop_keep.
  - rewrite (ltb_not_nan _ _ Hx). by rewrite argmax_loop_find.
Qed.

(** The same, by index: entry [k] dominates every entry and is strictly
    above the entries before it. *)
Lemma np_argmax_index (a : list (list float)) k m :
  concat a !! k = Some m →
  (∀ j x, j < k → concat a !! j = Some x → (x <? m)%float = true) →
  (∀ j x, k < j → concat a !! j = Some x → (x <=? m)%float = true) →
  np_argmax a = Ok k.
Proof.
  intros Hk Hlt Hle.
  pose proof (take_drop_middle _ _ _ Hk) as Hsplit.
  assert (length (take k (concat a)) = k) as Hlen.
  { rewrite length_take. apply lookup_lt_Some in Hk. lia. }
  rewrite <-Hlen. eapply np_argmax_first_max; [by symmetry| |].
  - apply Forall_lookup. intros j x Hj.
    apply lookup_take_Some in Hj as [Hj ?]. by eapply Hlt.
  - apply Forall_lookup. intros j x Hj.
    rewrite lookup_drop in Hj. eapply Hle; [|done]. lia.
Qed.
End argmax.

(** ** Shapes and values through the pipeline *)

Section shapes.
Context {A B : Type}.

Lemma has_shape3_map (f : A → B) n0 n1 n2 (a : list (list (list A))) :
  has_shape3 n0 n1 n2 a → has_shape3 n0 n1 n2 (map (map (map f)) a).
Proof.
  intros [Hl Hrows]. split; [by rewrite length_map|].
  apply Forall_map. eapply Forall_impl; [exact Hrows|].
  intros row [Hr Hpx]. split; [by rewrite length_map|].
  apply Forall_map. eapply Forall_impl; [exact Hpx|].
  intros px Hc. simpl. by rewrite length_map.
Qed.

Lemma Forall3_map (P : B → Prop) (f : A → B) (a : list (list (list A))) :
  (∀ v, P (f v)) → Forall (Forall (Forall P)) (map (map (map f)) a).
Proof.
  intros HP. apply Forall_map, Forall_true. intros row.
  apply Forall_map, Forall_true. intros px.
  apply Forall_map, Forall_true. intros v. apply HP.
Qed.

(** [mapM] over [result] succeeds when every element does, and relates the
    lists elementwise. *)
Lemma mapM_result_Forall2 (f : A → result B) (l : list A) :
  Forall (λ x, is_Ok (f x) = true) l →
  ∃ k, mapM f l = Ok k ∧ Forall2 (λ x y, f x = Ok y) l k.
Proof.
  induction 1 as [|x l Hx _ [k [Hk HF]]]; simpl.
  - by exists [].
  - destruct (f x) as [y|] eqn:Hy; [|done].
    exists (y :: k). rewrite Hk. split; [done|]. by constructor.
Qed.
End shapes.

Lemma bgr2rgb_channels px :
  length px = 3 → ∃ px', bgr2rgb px = Ok px' ∧ length px' = 3.
Proof. destruct px as [|b [|g [|r [|]]]]; try done. intros _. by eexists. Qed.

Lemma cvtColor_shape (img : image) h w :
  0 < h → 0 < w → has_shape3 h w 3 img →
  ∃ rgb, cvtColor_BGR2RGB (Some img) = Ok rgb ∧ has_shape3 h w 3 rgb.
Proof.
  intros Hh Hw [Hl Hrows]. unfold cvtColor_BGR2RGB.
  assert (mat_empty img = false) as ->.
  { destruct img as [|[|px row] img]; simpl in *; [lia| |done].
    apply Forall_cons in Hrows as [[Hr _] _]. simpl in Hr. lia. }
  destruct (mapM_result_Forall2 (mapM bgr2rgb) img) as [rgb [Hrgb HF]].
  { eapply Forall_impl; [exact Hrows|]. intros row [_ Hpx].
    destruct (mapM_result_Forall2 bgr2rgb row) as [k [-> _]]; [|done].
    eapply Forall_impl; [exact Hpx|]. intros px Hc. simpl in Hc.
    by destruct (bgr2rgb_channels px Hc) as [px' [-> _]]. }
  exists rgb. split; [done|]. split.
  - by rewrite <-(Forall2_length _ _ _ HF).
  - clear Hl Hrgb. induction HF as [|row row' img rgb Hrow _ IH]; [done|].
    apply Forall_cons in Hrows as [[Hr Hpx] Hrows].
    constructor; [|by apply IH].
    destruct (mapM_result_Forall2 bgr2rgb row) as [k [Hk HF2]].
    { eapply Forall_impl; [exact Hpx|]. intros px Hc. simpl in Hc.
      by destruct (bgr2rgb_channels px Hc) as [px' [-> _]]. }
    rewrite Hk in Hrow. injection Hrow as <-. split.
    + by rewrite <-(Forall2_length _ _ _ HF2).
    + clear Hk Hr. induction HF2 as [|px px' row k Hpx' _ IH2]; [done|].
      apply Forall_cons in Hpx as [Hc Hpx].
      constructor; [|by apply IH2]. simpl in Hc.
      destruct (bgr2rgb_channels px Hc) as [px'' [Hpx'' Hc']]. congruence.
Qed.

(** [v / 255.0] lies in [[0.0, 1.0]] for each of the 256 values of [v]. *)
Lemma normalised_range (v : byte) :
  (0 <=? float_of_byte v / 255)%float = true ∧
  (float_of_byte v / 255 <=? 1)%float = true.
Proof. destruct v; split; vm_compute; reflexivity. Qed.

(** ** Strings *)

Lemma prefix_app (m h t : string) :
  String.prefix m h = true → String.prefix m (h ++ t) = true.
Proof.
  revert h. induction m as [|c m IH]; intros h.
  - intros _. by destruct (h ++ t).
  - destruct h as [|c' h]; simpl; [done|].
    destruct (ascii_dec c c'); [apply IH|done].
Qed.

Lemma split_first_app (sep : ascii) (h t : string) :
  sep ∉ list_ascii_of_string h →
  split_first sep (h ++ String sep t) = Some (h, t).
Proof.
  induction h as [|c h IH]; simpl; intros Hin.
  - by rewrite Ascii.eqb_refl.
  - apply not_elem_of_cons in Hin as [Hne Hin].
    destruct (Ascii.eqb_spec c sep) as [->|_]; [done|].
    by rewrite IH.
Qed.

(** ** Both encodings funnel into one pipeline *)

Section pipeline.
Context `{!Base64, !OpenCV}.

(** The two branches of [preprocess_image], and which inputs take which. *)
Lemma preprocess_image_branches data target_size :
  preprocess_image data target_size =
    match isinstance_str_startswith data "data:image" with
    | Some s =>
        '(header, encoded) ← unpack2 (str_split_1 s ",");
        image_bytes ← b64decode encoded;
        convert_resize_normalise target_size (imdecode image_bytes)
    | None =>
        file_bytes ← py_read data;
        convert_resize_normalise target_size (imdecode file_bytes)
    end.
Proof.
  unfold preprocess_image.
  destruct (isinstance_str_startswith data "data:image") as [s|]; simpl.
  - destruct (unpack2 _) as [[header encoded]|]; simpl; [|done].
    by destruct (b64decode encoded).
  - by destruct (py_read data).
Qed.

Lemma preprocess_image_carries data bs target_size :
  carries data bs →
  preprocess_image data target_size =
    (img ← cvtColor_BGR2RGB (imdecode bs);
     img ← resize img target_size;
     mret (expand_dims_0 (np_divide img 255))).
Proof.
  intros [header payload bs' Hpre Hcomma Hdec|f];
    unfold preprocess_image, isinstance_str_startswith, str_split_1.
  - change ("," ++ payload) with (String "," payload).
    rewrite (prefix_app _ _ _ Hpre), (split_first_app _ _ _ Hcomma). simpl.
    by rewrite Hdec.
  - done.
Qed.

Lemma preprocess_image_decoded data bs img :
  carries data bs → imdecode bs = Some img →
  ∃ rgb resized,
    cvtColor_BGR2RGB (Some img) = Ok rgb ∧
    resize rgb (224, 224) = Ok resized ∧
    has_shape3 224 224 3 resized ∧
    preprocess_image data default_target_size
      = Ok (expand_dims_0 (np_divide resized 255)).
Proof.
  intros Hc Himg.
  destruct (imdecode_color _ _ Himg) as (h & w & Hh & Hw & Hshape).
  destruct (cvtColor_shape img h w Hh Hw Hshape) as (rgb & Hrgb & Hshape').
  destruct (resize_shape rgb h w 3 224 224 Hshape') as (out & Hout & Hshape'');
    [lia..|].
  exists rgb, out. split_and!; [done..|].
  rewrite (preprocess_image_carries _ _ _ Hc), Himg, Hrgb. simpl.
  unfold default_target_size. by rewrite Hout.
Qed.
End pipeline.

(** ** The reference implementations meet the interfaces *)

Lemma all_bytes_complete (b : byte) : b ∈ all_bytes.
Proof. destruct b; refine (bool_decide_unpack _ _); vm_compute; exact I. Qed.

Lemma byte_cases (P : byte → bool) : forallb P all_bytes = true → ∀ b, P b = true.
Proof.
  intros H b. rewrite forallb_forall in H. apply H, list_elem_of_In, all_bytes_complete.
Qed.

Lemma byte2_cases (P : byte → byte → bool) :
  forallb (λ a, forallb (P a) all_bytes) all_bytes = true → ∀ a b, P a b = true.
Proof.
  intros H a b. apply (byte_cases (P a)). by apply (byte_cases (λ a, forallb (P a) all_bytes)).
Qed.


(** Induction on a list three elements at a time. *)
Lemma list_ind3 {A} (P : list A → Prop) :
  P [] → (∀ a, P [a]) → (∀ a b, P [a; b]) →
  (∀ a b c l, P l → P (a :: b :: c :: l)) → ∀ l, P l.
Proof.
  intros H0 H1 H2 H3. fix IH 1.
  intros [|a [|b [|c l]]];
    [exact H0 | exact (H1 a) | exact (H2 a b) | exact (H3 a b c l (IH l))].
Qed.

Section sextets.
Implicit Types a b c : byte.
Local Open Scope Z_scope.
Local Notation "# a" := (Z_of_byte a) (at level 1, format "# a").

Lemma sextet0_ok a : sextet_ok (Z.shiftr #a 2) = true.
Proof. revert a. apply byte_cases. vm_compute. reflexivity. Qed.

Lemma sextet1_ok a b :
  sextet_ok (Z.lor (Z.shiftl (Z.land #a 3) 4) (Z.shiftr #b 4)) = true.
Proof. revert a b. apply byte2_cases. vm_compute. reflexivity. Qed.

Lemma sextet2_ok b c :
  sextet_ok (Z.lor (Z.shiftl (Z.land #b 15) 2) (Z.shiftr #c 6)) = true.
Proof. revert b c. apply byte2_cases. vm_compute. reflexivity. Qed.

Lemma sextet3_ok c : sextet_ok (Z.land #c 63) = true.
Proof. revert c. apply byte_cases. vm_compute. reflexivity. Qed.

Lemma sextet1_last_ok a : sextet_ok (Z.shiftl (Z.land #a 3) 4) = true.
Proof. revert a. apply byte_cases. vm_compute. reflexivity. Qed.

Lemma sextet2_last_ok b : sextet_ok (Z.shiftl (Z.land #b 15) 2) = true.
Proof. revert b. apply byte_cases. vm_compute. reflexivity. Qed.

Lemma byte0_back a b :
  byte_of_Z (Z.lor (Z.shiftl (Z.shiftr #a 2) 2)
                   (Z.shiftr (Z.lor (Z.shiftl (Z.land #a 3) 4) (Z.shiftr #b 4)) 4)) = a.
Proof.
  apply Byte.byte_dec_bl. revert a b.
  apply (byte2_cases (λ a b, Byte.eqb _ a)). vm_compute. reflexivity.
Qed.

Lemma byte0_last_back a :
  byte_of_Z (Z.lor (Z.shiftl (Z.shiftr #a 2) 2)
                   (Z.shiftr (Z.shiftl (Z.land #a 3) 4) 4)) = a.
Proof.
  apply Byte.byte_dec_bl. revert a.
  apply (byte_cases (λ a, Byte.eqb _ a)). vm_compute. reflexivity.
Qed.

Lemma byte1_back a b c :
  byte_of_Z (Z.lor (Z.shiftl (Z.land (Z.lor (Z.shiftl (Z.land #a 3) 4) (Z.shiftr #b 4)) 15) 4)
                   (Z.shiftr (Z.lor (Z.shiftl (Z.land #b 15) 2) (Z.shiftr #c 6)) 2)) = b.
Proof.
  assert (Z.land (Z.lor (Z.shiftl (Z.land #a 3) 4) (Z.shiftr #b 4)) 15 = Z.shiftr #b 4) as ->.
  { apply Z.eqb_eq. revert a b. apply (byte2_cases (λ a b, _ =? _)). vm_compute. reflexivity. }
  apply Byte.byte_dec_bl. revert b c.
  apply (byte2_cases (λ b c, Byte.eqb _ b)). vm_compute. reflexivity.
Qed.

Lemma byte1_last_back a b :
  byte_of_Z (Z.lor (Z.shiftl (Z.land (Z.lor (Z.shiftl (Z.land #a 3) 4) (Z.shiftr #b 4)) 15) 4)
                   (Z.shiftr (Z.shiftl (Z.land #b 15) 2) 2)) = b.
Proof.
  apply Byte.byte_dec_bl. revert a b.
  apply (byte2_cases (λ a b, Byte.eqb _ b)). vm_compute. reflexivity.
Qed.

Lemma byte2_back b c :
  byte_of_Z (Z.lor (Z.shiftl (Z.land (Z.lor (Z.shiftl (Z.land #b 15) 2) (Z.shiftr #c 6)) 3) 6)
                   (Z.land #c 63)) = c.
Proof.
  apply Byte.byte_dec_bl. revert b c.
  apply (byte2_cases (λ b c, Byte.eqb _ c)). vm_compute. reflexivity.
Qed.
End sextets.

(** One step of the decoder on the character of a sextet. *)
Lemma a2b_base64_sextet v s quad_pos leftchar pads :
  sextet_ok v = true →
  a2b_base64 (String (b64_char v) s) quad_pos leftchar pads =
    match quad_pos with
    | 0 => a2b_base64 s 1 v 0
    | 1 =>
        bs ← a2b_base64 s 2 (Z.land v 15) 0;
        mret (byte_of_Z (Z.lor (Z.shiftl leftchar 2) (Z.shiftr v 4)) :: bs)
    | 2 =>
        bs ← a2b_base64 s 3 (Z.land v 3) 0;
        mret (byte_of_Z (Z.lor (Z.shiftl leftchar 4) (Z.shiftr v 2)) :: bs)
    | _ =>
        bs ← a2b_base64 s 0 0%Z 0;
        mret (byte_of_Z (Z.lor (Z.shiftl leftchar 6) v) :: bs)
    end.
Proof.
  unfold sextet_ok. intros [[Hv Hpad%negb_true_iff]%andb_prop _]%andb_prop.
  apply bool_decide_eq_true in Hv. cbn [a2b_base64]. by rewrite Hpad, Hv.
Qed.

Lemma a2b_b2a_base64 bs : a2b_base64 (b2a_base64 bs) 0 0%Z 0 = Ok bs.
Proof.
  induction bs as [|a|a b|a b c bs IH] using list_ind3; cbn [b2a_base64].
  - done.
  - rewrite !a2b_base64_sextet by auto using sextet0_ok, sextet1_last_ok.
    cbn. by rewrite byte0_last_back.
  - rewrite !a2b_base64_sextet by auto using sextet0_ok, sextet1_ok, sextet2_last_ok.
    cbn. by rewrite byte0_back, byte1_last_back.
  - rewrite !a2b_base64_sextet
      by auto using sextet0_ok, sextet1_ok, sextet2_ok, sextet3_ok.
    rewrite IH. cbn. by rewrite byte0_back, byte1_back, byte2_back.
Qed.

Lemma b2a_base64_ascii bs :
  forallb (λ c, (N_of_ascii c <? 128)%N) (list_ascii_of_string (b2a_base64 bs)) = true.
Proof.
  assert (∀ v, sextet_ok v = true → (N_of_ascii (b64_char v) <? 128)%N = true) as Hc.
  { unfold sextet_ok. by intros v [_ ?]%andb_prop. }
  induction bs as [|a|a b|a b c bs IH] using list_ind3; cbn [b2a_base64];
    cbn [list_ascii_of_string forallb];
    rewrite ?Hc by auto using sextet0_ok, sextet1_ok, sextet2_ok, sextet3_ok,
                              sextet1_last_ok, sextet2_last_ok; done.
Qed.

Lemma py_b64decode_b64encode bs : py_b64decode (b2a_base64 bs) = Ok bs.
Proof. unfold py_b64decode. by rewrite b2a_base64_ascii, a2b_b2a_base64. Qed.

#[local] Instance python_base64 : Base64 := {|
  b64decode := py_b64decode;
  b64encode := b2a_base64;
  b64decode_b64encode := py_b64decode_b64encode
|}.

Lemma mat_empty_shape (img : image) h w c :
  0 < h → 0 < w → has_shape3 h w c img → mat_empty img = false.
Proof.
  intros Hh Hw [Hl Hrows].
  destruct img as [|[|px row] img]; simpl in *; [lia| |done].
  apply Forall_cons in Hrows as [[Hr _] _]. simpl in Hr. lia.
Qed.

Lemma raw_imdecode_color buf img :
  raw_imdecode buf = Some img → ∃ h w, 0 < h ∧ 0 < w ∧ has_shape3 h w 3 img.
Proof.
  destruct buf as [|hb [|wb px]]; simpl; try done.
  set (h := N.to_nat (Byte.to_N hb)). set (w := N.to_nat (Byte.to_N wb)).
  destruct (0 <? h)%nat eqn:Hh; simpl; [|done].
  destruct (0 <? w)%nat eqn:Hw; simpl; [|done].
  destruct (length px =? h * w * 3)%nat eqn:Hpx; simpl; [|done].
  apply Nat.ltb_lt in Hh, Hw. apply Nat.eqb_eq in Hpx.
  intros [= <-]. exists h, w. split_and!; [done..|]. split.
  - by rewrite length_map, length_seq.
  - apply Forall_map, Forall_forall. intros i Hi%elem_of_seq. split.
    + by rewrite length_map, length_seq.
    + apply Forall_map, Forall_forall. intros j Hj%elem_of_seq. simpl.
      rewrite length_take, length_drop. nia.
Qed.

Lemma nearest_resize_shape (img : image) h w c dw dh :
  has_shape3 h w c img → 0 < h → 0 < w → 0 < c ≤ 4 → 0 < dw → 0 < dh →
  ∃ out, nearest_resize img (dw, dh) = Ok out ∧ has_shape3 dh dw c out.
Proof.
  intros Hshape Hh Hw Hc Hdw Hdh. unfold nearest_resize.
  rewrite (mat_empty_shape img h w c Hh Hw Hshape).
  destruct (Nat.eqb_spec dw 0) as [|_]; [lia|].
  destruct (Nat.eqb_spec dh 0) as [|_]; [lia|]. simpl.
  eexists. split; [done|]. destruct Hshape as [Hl Hrows].
  assert (length (default [] (head img)) = w) as ->.
  { destruct img as [|row img]; simpl in *; [lia|].
    by apply Forall_cons in Hrows as [[Hr _] _]. }
  split; [by rewrite length_map, length_seq|].
  apply Forall_map, Forall_forall. intros y Hy%elem_of_seq. split.
  - by rewrite length_map, length_seq.
  - apply Forall_map, Forall_forall. intros x Hx%elem_of_seq. simpl.
    assert (y * length img / dh < length img)%nat as Hrow.
    { apply Nat.Div0.div_lt_upper_bound. nia. }
    apply lookup_lt_is_Some in Hrow as [row Hrow]. rewrite Hrow. simpl.
    destruct (Forall_lookup_1 _ _ _ _ Hrows Hrow) as [Hr Hpx].
    assert (x * w / dw < length row)%nat as Hcol.
    { rewrite Hr. apply Nat.Div0.div_lt_upper_bound. nia. }
    apply lookup_lt_is_Some in Hcol as [px Hcol]. rewrite Hcol. simpl.
    exact (Forall_lookup_1 _ _ _ _ Hpx Hcol).
Qed.

#[local] Instance reference_cv : OpenCV := {|
  imdecode := raw_imdecode;
  resize := nearest_resize;
  imdecode_color := raw_imdecode_color;
  resize_shape := nearest_resize_shape
|}.

(** ** The label map built at startup *)

Lemma dict_comprehension_enumerate_from (l : list string) (n : nat) (d : gmap Z string) (k : Z) :
  fold_left (λ d kv, <[kv.1 := kv.2]> d) (imap (λ i x, (Z.of_nat (n + i), x)) l) d !! k
  = if decide (Z.of_nat n ≤ k < Z.of_nat (n + length l))%Z
    then l !! (Z.to_nat k - n) else d !! k.
Proof.
  revert n d. induction l as [|x l IH]; intros n d; simpl.
  - case_decide; [lia|done].
  - rewrite (imap_ext _ (λ i y, (Z.of_nat (S n + i), y)))
      by (intros; unfold compose; f_equal; lia).
    rewrite IH. repeat case_decide; try lia.
    + replace (Z.to_nat k - n) with (S (Z.to_nat k - S n)) by lia. done.
    + assert (k = Z.of_nat (n + 0)) as -> by lia.
      rewrite lookup_insert_eq. by replace (Z.to_nat (Z.of_nat (n + 0)) - n) with 0 by lia.
    + rewrite lookup_insert_ne by lia. done.
Qed.

(** [{i: x for i, x in enumerate(l)}] maps [i] to the [i]-th element of
    [l] and holds nothing else. *)
Lemma dict_comprehension_enumerate (l : list string) (k : Z) :
  dict_comprehension (enumerate l) !! k
  = if decide (0 ≤ k)%Z then l !! Z.to_nat k else None.
Proof.
  unfold dict_comprehension, enumerate.
  rewrite (dict_comprehension_enumerate_from l 0 ∅ k). simpl.
  rewrite Nat.sub_0_r, lookup_empty.
  repeat case_decide; try done; try lia.
  symmetry. apply lookup_ge_None. lia.
Qed.

Lemma ascii_uppercase_lookup (i : nat) :
  (i ≤ 25)%nat →
  str_iter ascii_uppercase !! i = Some (String (ascii_of_nat (65 + i)) "").
Proof.
  intros Hi. do 26 (destruct i as [|i]; [reflexivity|]). lia.
Qed.

Lemma ascii_uppercase_length : length (str_iter ascii_uppercase) = 26.
Proof. reflexivity. Qed.

(** ** Running the handlers *)

Ltac handler_unfold :=
  unfold dispatch, predict, classify_image, load_model, write_model,
    write_LABEL_MAP, read_global, invoke, lift, mbind, mret,
    handler_bind, handler_ret in *;
  cbv zeta in *.

Section frame.
Context {A B : Type}.

Lemma frames_ret (a : A) : frames (mret a).
Proof. by intros w. Qed.

Lemma frames_lift (r : result A) : frames (lift r).
Proof. by intros w. Qed.

Lemma frames_invoke c (r : result A) : frames (invoke c r).
Proof. by intros w. Qed.

Lemma frames_read_global (name : globals → option A) : frames (read_global name).
Proof. intros w. unfold read_global. by destruct (name (glob w)). Qed.

Lemma frames_bind (h : handler A) (k : A → handler B) :
  frames h → (∀ a, frames (k a)) → frames (h ≫= k).
Proof.
  intros Hh Hk w. unfold mbind, handler_bind.
  specialize (Hh w). destruct (h w) as [[a|e] w']; simpl in *; [|done].
  by rewrite Hk.
Qed.
End frame.

Section requests.
Context `{!Base64, !OpenCV}.

Lemma load_model_started `{!Keras} dirname w0 w :
  load_model dirname w0 = (Ok (), w) →
  ∃ m, glob w = {| model := Some m;
                   LABEL_MAP := Some (dict_comprehension (enumerate (str_iter ascii_uppercase))) |}
       ∧ calls w = calls w0.
Proof.
  handler_unfold. destruct (keras_load_model _) as [m|e]; [|done].
  intros [= <-]. by exists m.
Qed.

(** What a request that reaches the network answers. *)
Lemma dispatch_inference req data w m d img preds index :
  submits req data →
  model (glob w) = Some m → LABEL_MAP (glob w) = Some d →
  preprocess_image data default_target_size = Ok img →
  model_predict m img = Ok preds →
  np_argmax preds = Ok index →
  dispatch req w =
    (Ok (jsonify [("prediction", PyStr (default "?" (d !! Z.of_nat index)))]),
     {| glob := glob w;
        calls := (calls w ++ [call_preprocess_image data]) ++ [call_model_predict img] |}).
Proof.
  intros Hsub Hm Hd Himg Hpreds Hidx.
  destruct Hsub as [json image_data Hget|files f Hf Htruthy]; handler_unfold.
  - rewrite Hget, Himg. simpl. rewrite Hm, Hpreds. simpl.
    rewrite Hidx, Hd. done.
  - rewrite Hf. cbn [from_option]. rewrite Htruthy, Himg. simpl.
    rewrite Hm, Hpreds. simpl. rewrite Hidx, Hd. done.
Qed.

(** What a request whose image cannot be preprocessed answers. *)
Lemma dispatch_preprocess_error req data w e :
  submits req data →
  preprocess_image data default_target_size = Raise e →
  dispatch req w =
    (Raise e, {| glob := glob w; calls := calls w ++ [call_preprocess_image data] |}).
Proof.
  intros Hsub Himg.
  destruct Hsub as [json image_data Hget|files f Hf Htruthy]; handler_unfold.
  - by rewrite Hget, Himg.
  - rewrite Hf. cbn [from_option]. by rewrite Htruthy, Himg.
Qed.

Lemma predict_frames json : frames (predict json).
Proof.
  unfold predict.
  repeat first [ apply frames_bind; [|intros ?] | apply frames_lift
               | apply frames_invoke | apply frames_read_global | apply frames_ret ].
Qed.

Lemma classify_image_frames files : frames (classify_image files).
Proof.
  unfold classify_image. destruct (negb _); [apply frames_ret|].
  repeat first [ apply frames_bind; [|intros ?] | apply frames_lift
               | apply frames_invoke | apply frames_read_global | apply frames_ret ].
Qed.
End requests.

(** ** The values of the tensor *)

Lemma mapM_result_map {A B} (f : A → result B) (g : A → B) (l : list A) :
  Forall (λ x, f x = Ok (g x)) l → mapM f l = Ok (map g l).
Proof.
  induction 1 as [|x l Hx _ IH]; simpl; [done|]. by rewrite Hx, IH.
Qed.

(** On a non-empty image of three channels the conversion reverses every
    pixel. *)
Lemma cvtColor_reverse (img : image) h w :
  0 < h → 0 < w → has_shape3 h w 3 img →
  cvtColor_BGR2RGB (Some img) = Ok (map (map reverse) img).
Proof.
  intros Hh Hw Hshape. unfold cvtColor_BGR2RGB.
  rewrite (mat_empty_shape img h w 3 Hh Hw Hshape).
  apply mapM_result_map. destruct Hshape as [_ Hrows].
  eapply Forall_impl; [exact Hrows|]. intros row [_ Hpx].
  apply mapM_result_map. eapply Forall_impl; [exact Hpx|].
  intros px Hc. simpl in Hc. by destruct px as [|b [|g [|r [|]]]].
Qed.

Lemma Forall2_map_diag {A B} (R : A → B → Prop) (f : A → B) (l : list A) :
  (∀ x, R x (f x)) → Forall2 R l (map f l).
Proof. intros HR. induction l; simpl; by constructor. Qed.

(** Every one of the 256 pixel values, divided as [np_divide] does it, is
    its quotient by 255. *)
Lemma quotient_by_255_byte (v : byte) : quotient_by_255 v (float_of_byte v / 255)%float.
Proof.
  unfold quotient_by_255. split; [reflexivity|]. revert v.
  assert (∀ v, rounds_quotient (Z.of_N (Byte.to_N v)) 255 (float_of_byte v / 255)%float
               && (float_of_byte v / 255 * 255
                   =? PrimFloat.of_uint63 (Uint63.of_Z (Z.of_N (Byte.to_N v))))%float
               = true) as H.
  { apply byte_cases. vm_compute. reflexivity. }
  intros v. specialize (H v). by apply andb_prop in H.
Qed.

Lemma np_divide_quotients (img : image) :
  Forall2 (Forall2 (Forall2 quotient_by_255)) img (np_divide img 255).
Proof.
  unfold np_divide. apply Forall2_map_diag. intros row.
  apply Forall2_map_diag. intros px.
  apply Forall2_map_diag. exact quotient_by_255_byte.
Qed.

(** * The claims *)

Section preprocessing_claims.
Context `{!Base64, !OpenCV}.

(** C1.  For every input that carries a decodable image, whatever its
    dimensions and in either encoding, [preprocess_image] returns a tensor
    of shape (1, 224, 224, 3) whose elements all lie in [[0.0, 1.0]]; the
    tensor is the image, converted to RGB and resized to 224 x 224, divided
    by 255 and wrapped in a batch of one.  Element by element, the one
    image [t0] of the batch holds, at the place of each pixel value [v] of
    the resized image, the quotient of [v] by 255: the IEEE quotient, which
    is the exact quotient correctly rounded and gives [v] back when
    multiplied by 255. *)
Theorem preprocess_image_tensor data bs img :
  carries data bs → imdecode bs = Some img →
  ∃ t, preprocess_image data default_target_size = Ok t ∧
       has_shape4 1 224 224 3 t ∧
       Forall4 (λ x, (0 <=? x)%float = true ∧ (x <=? 1)%float = true) t ∧
       ∃ rgb resized,
         cvtColor_BGR2RGB (Some img) = Ok rgb ∧
         resize rgb (224, 224) = Ok resized ∧
         t = expand_dims_0 (np_divide resized 255) ∧
         rgb = map (map reverse) img ∧
         has_shape3 224 224 3 resized ∧
         ∃ t0, t = [t0] ∧ Forall2 (Forall2 (Forall2 quotient_by_255)) resized t0.
Proof.
  intros Hc Himg.
  destruct (preprocess_image_decoded data bs img Hc Himg)
    as (rgb & resized & Hrgb & Hres & Hshape & Hrun).
  eexists. split; [exact Hrun|]. split_and!.
  - split; [done|]. constructor; [|constructor].
    by apply has_shape3_map.
  - constructor; [|constructor].
    apply Forall3_map. exact normalised_range.
  - exists rgb, resized. split_and!; [done..| |done|].
    + destruct (imdecode_color _ _ Himg) as (h & w & Hh & Hw & Himgshape).
      rewrite (cvtColor_reverse img h w Hh Hw Himgshape) in Hrgb. congruence.
    + exists (np_divide resized 255). split; [done|]. apply np_divide_quotients.
Qed.

(** C2.  The same bytes give the same result through both entry points:
    for any bytes, the data URL made of a header and their base64 encoding
    is preprocessed to the same tensor as an upload whose [read()] returns
    them (and fails the same way when they are not an image); so is any
    other payload that decodes to them. *)
Theorem encoding_path_independence header bs f target_size :
  String.prefix "data:image" header = true →
  ","%char ∉ list_ascii_of_string header →
  stream f = bs →
  preprocess_image (PyStr (header ++ "," ++ b64encode bs)) target_size
    = preprocess_image (PyFile f) target_size ∧
  ∀ payload, b64decode payload = Ok bs →
    preprocess_image (PyStr (header ++ "," ++ payload)) target_size
    = preprocess_image (PyFile f) target_size.
Proof.
  intros Hpre Hcomma <-.
  assert (∀ payload, b64decode payload = Ok (stream f) →
            preprocess_image (PyStr (header ++ "," ++ payload)) target_size
            = preprocess_image (PyFile f) target_size) as Hany.
  { intros payload Hdec.
    rewrite (preprocess_image_carries _ (stream f)) by by constructor.
    by rewrite (preprocess_image_carries (PyFile f) (stream f)) by constructor. }
  split; [|exact Hany]. apply Hany, b64decode_b64encode.
Qed.

(** C6.  For every input whose bytes OpenCV cannot decode ([imdecode]
    returns [None]), [preprocess_image] raises, and what it raises is a
    decode error: the [cv2.error] of the colour conversion. *)
Theorem preprocess_image_undecodable data bs target_size :
  carries data bs → imdecode bs = None →
  ∃ e, preprocess_image data target_size = Raise e ∧ DecodeError e ∧ e = cv2_error.
Proof.
  intros Hc Himg. exists cv2_error.
  rewrite (preprocess_image_carries _ _ _ Hc), Himg. split; [done|].
  split; [by right|done].
Qed.
End preprocessing_claims.

Lemma preprocess_image_tensor_witness :
  ∃ t, preprocess_image (PyStr pixel_data_url) default_target_size = Ok t ∧
       has_shape4 1 224 224 3 t ∧
       Forall4 (λ x, (0 <=? x)%float = true ∧ (x <=? 1)%float = true) t ∧
       ∃ rgb resized,
         cvtColor_BGR2RGB (Some [[[x0a; x14; x1e]]]) = Ok rgb ∧
         resize rgb (224, 224) = Ok resized ∧
         t = expand_dims_0 (np_divide resized 255) ∧
         rgb = map (map reverse) [[[x0a; x14; x1e]]] ∧
         has_shape3 224 224 3 resized ∧
         ∃ t0, t = [t0] ∧ Forall2 (Forall2 (Forall2 quotient_by_255)) resized t0.
Proof.
  apply (preprocess_image_tensor (PyStr pixel_data_url) pixel_bytes).
  - apply (carries_data_url "data:image/raw;base64" "AQEKFB4=" pixel_bytes).
    + reflexivity.
    + refine (bool_decide_unpack _ _). vm_compute. exact I.
    + reflexivity.
  - reflexivity.
Defined.

Lemma encoding_path_independence_witness :
  preprocess_image (PyStr ("data:image/raw;base64" ++ "," ++ b64encode pixel_bytes))
                   default_target_size
    = preprocess_image (PyFile pixel_upload) default_target_size ∧
  ∀ payload, b64decode payload = Ok pixel_bytes →
    preprocess_image (PyStr ("data:image/raw;base64" ++ "," ++ payload)) default_target_size
    = preprocess_image (PyFile pixel_upload) default_target_size.
Proof.
  apply (encoding_path_independence "data:image/raw;base64" pixel_bytes pixel_upload).
  - reflexivity.
  - refine (bool_decide_unpack _ _). vm_compute. exact I.
  - reflexivity.
Defined.

Lemma preprocess_image_undecodable_witness :
  ∃ e, preprocess_image (PyFile text_upload) default_target_size = Raise e ∧
       DecodeError e ∧ e = cv2_error.
Proof.
  apply (preprocess_image_undecodable (PyFile text_upload) (stream text_upload)).
  - constructor.
  - reflexivity.
Defined.

Section label_claims.
Context `{!Base64, !OpenCV, !Keras}.

(** C3.  After startup, when the network's scores for a request have their
    maximum at index [i] (every other entry is strictly below entry [i], as
    in a one-hot vector) and [i] is between 0 and 25, the answer is the
    [i]-th letter of the uppercase alphabet: "A" for 0, ..., "Z" for 25. *)
Theorem label_of_maximum dirname w0 w req data img m preds i score :
  load_model dirname w0 = (Ok (), w) →
  submits req data →
  preprocess_image data default_target_size = Ok img →
  model (glob w) = Some m →
  model_predict m img = Ok preds →
  (i ≤ 25)%nat →
  concat preds !! i = Some score →
  (∀ j x, j ≠ i → concat preds !! j = Some x → (x <? score)%float = true) →
  ∃ letter,
    str_iter ascii_uppercase !! i = Some letter ∧
    letter = String (ascii_of_nat (65 + i)) "" ∧
    (dispatch req w).1 = Ok (jsonify [("prediction", PyStr letter)]).
Proof.
  intros Hload Hsub Himg Hm Hpreds Hi Hscore Hmax.
  destruct (load_model_started _ _ _ Hload) as (m' & Hglob & _).
  assert (np_argmax preds = Ok i) as Hidx.
  { eapply np_argmax_index; [exact Hscore| |].
    - intros j x Hj. apply Hmax. lia.
    - intros j x Hj Hx. apply ltb_leb. eapply Hmax; [|exact Hx]. lia. }
  exists (String (ascii_of_nat (65 + i)) "").
  split; [by apply ascii_uppercase_lookup|]. split; [done|].
  rewrite (dispatch_inference req data w m _ img preds i Hsub Hm
             (f_equal LABEL_MAP Hglob) Himg Hpreds Hidx).
  cbn [fst LABEL_MAP]. rewrite dict_comprehension_enumerate.
  case_decide; [|lia]. rewrite Nat2Z.id.
  by rewrite ascii_uppercase_lookup.
Qed.

(** C4.  After startup, when the index [np.argmax] returns for a request's
    scores is not one of 0..25, the answer is the sentinel "?" and nothing
    is raised. *)
Theorem label_of_unknown_index dirname w0 w req data img m preds index :
  load_model dirname w0 = (Ok (), w) →
  submits req data →
  preprocess_image data default_target_size = Ok img →
  model (glob w) = Some m →
  model_predict m img = Ok preds →
  np_argmax preds = Ok index →
  (26 ≤ index)%nat →
  (dispatch req w).1 = Ok (jsonify [("prediction", PyStr "?")]).
Proof.
  intros Hload Hsub Himg Hm Hpreds Hidx Hout.
  destruct (load_model_started _ _ _ Hload) as (m' & Hglob & _).
  rewrite (dispatch_inference req data w m _ img preds index Hsub Hm
             (f_equal LABEL_MAP Hglob) Himg Hpreds Hidx).
  cbn [fst LABEL_MAP]. rewrite dict_comprehension_enumerate.
  case_decide; [|done]. rewrite Nat2Z.id.
  rewrite (proj2 (lookup_ge_None _ _)); [done|].
  rewrite ascii_uppercase_length. lia.
Qed.
End label_claims.

Section argmax_claims.
Context `{!Base64, !OpenCV}.

(** C7.  When entry [k] of a request's scores is a maximum (no entry
    exceeds it) and no earlier entry equals it, [np.argmax] returns [k],
    however many later entries tie with it, and the answer is the label of
    [k]: among tied maxima the lowest index decides. *)
Theorem label_of_tied_maxima w req data img m d preds k score :
  submits req data →
  preprocess_image data default_target_size = Ok img →
  model (glob w) = Some m →
  LABEL_MAP (glob w) = Some d →
  model_predict m img = Ok preds →
  concat preds !! k = Some score →
  (∀ j x, concat preds !! j = Some x → (x <=? score)%float = true) →
  (∀ j x, j < k → concat preds !! j = Some x → (x =? score)%float = false) →
  np_argmax preds = Ok k ∧
  (dispatch req w).1 = Ok (jsonify [("prediction", PyStr (default "?" (d !! Z.of_nat k)))]).
Proof.
  intros Hsub Himg Hm Hd Hpreds Hscore Hle Hne.
  assert (np_argmax preds = Ok k) as Hidx.
  { eapply np_argmax_index; [exact Hscore| |].
    - intros j x Hj Hx. apply leb_neq_ltb; [by eapply Hle|by eapply Hne].
    - intros j x _ Hx. by eapply Hle. }
  split; [done|].
  by rewrite (dispatch_inference req data w m d img preds k Hsub Hm Hd Himg Hpreds Hidx).
Qed.
End argmax_claims.

Lemma label_of_maximum_witness :
  ∃ letter,
    str_iter ascii_uppercase !! 2 = Some letter ∧
    letter = String (ascii_of_nat (65 + 2)) "" ∧
    (dispatch (POST_predict (PyDict [("image", PyStr pixel_data_url)]))
              (started_world (one_hot 26 2))).1
    = Ok (jsonify [("prediction", PyStr letter)]).
Proof.
  set (img := match preprocess_image (PyStr pixel_data_url) default_target_size with
              | Ok t => t
              | Raise _ => []
              end).
  apply (@label_of_maximum python_base64 reference_cv
           (stub_keras (stub_model (one_hot 26 2)))
           "/srv/app" fresh_world (started_world (one_hot 26 2))
           (POST_predict (PyDict [("image", PyStr pixel_data_url)]))
           (PyStr pixel_data_url) img (stub_model (one_hot 26 2))
           [one_hot 26 2] 2 1%float).
  - reflexivity.
  - constructor. reflexivity.
  - vm_compute. reflexivity.
  - reflexivity.
  - reflexivity.
  - lia.
  - reflexivity.
  - intros j x Hj Hx.
    do 26 (destruct j as [|j]; [first [lia | injection Hx as <-; reflexivity]|]).
    discriminate.
Defined.

Lemma label_of_unknown_index_witness :
  (dispatch (POST_classify_image [("image", pixel_upload)])
            (started_world (one_hot 30 27))).1
  = Ok (jsonify [("prediction", PyStr "?")]).
Proof.
  set (img := match preprocess_image (PyFile pixel_upload) default_target_size with
              | Ok t => t
              | Raise _ => []
              end).
  apply (@label_of_unknown_index python_base64 reference_cv
           (stub_keras (stub_model (one_hot 30 27)))
           "/srv/app" fresh_world (started_world (one_hot 30 27))
           (POST_classify_image [("image", pixel_upload)])
           (PyFile pixel_upload) img (stub_model (one_hot 30 27))
           [one_hot 30 27] 27).
  - reflexivity.
  - by constructor.
  - vm_compute. reflexivity.
  - reflexivity.
  - reflexivity.
  - reflexivity.
  - lia.
Defined.

Lemma label_of_tied_maxima_witness :
  np_argmax [[0.25; 0.75; 0.75; 0.5]%float] = Ok 1 ∧
  (dispatch (POST_classify_image [("image", pixel_upload)])
            (started_world [0.25; 0.75; 0.75; 0.5]%float)).1
  = Ok (jsonify [("prediction", PyStr "B")]).
Proof.
  set (img := match preprocess_image (PyFile pixel_upload) default_target_size with
              | Ok t => t
              | Raise _ => []
              end).
  apply (@label_of_tied_maxima python_base64 reference_cv
           (started_world [0.25; 0.75; 0.75; 0.5]%float)
           (POST_classify_image [("image", pixel_upload)])
           (PyFile pixel_upload) img (stub_model [0.25; 0.75; 0.75; 0.5]%float)
           (dict_comprehension (enumerate (str_iter ascii_uppercase)))
           [[0.25; 0.75; 0.75; 0.5]%float] 1 0.75%float).
  - by constructor.
  - vm_compute. reflexivity.
  - reflexivity.
  - reflexivity.
  - reflexivity.
  - reflexivity.
  - intros j x Hx.
    do 4 (destruct j as [|j]; [injection Hx as <-; reflexivity|]). discriminate.
  - intros j x Hj Hx.
    destruct j as [|j]; [injection Hx as <-; reflexivity|lia].
Defined.

Section request_claims.
Context `{!Base64, !OpenCV}.

(** Whatever the request, [/predict] either answers 200 with a prediction
    or raises: no branch of it builds another response. *)
Lemma predict_outcome json w :
  (∃ letter, (predict json w).1 = Ok (jsonify [("prediction", PyStr letter)])) ∨
  (∃ e, (predict json w).1 = Raise e).
Proof.
  handler_unfold.
  destruct (py_get json "image") as [image_data|e]; [|by right; exists e].
  destruct (preprocess_image image_data default_target_size) as [img|e];
    [|by right; exists e].
  cbn [glob]. destruct (model (glob w)) as [m|]; [|by right; exists NameError].
  destruct (model_predict m img) as [preds|e]; [|by right; exists e].
  destruct (np_argmax preds) as [index|e]; [|by right; exists e].
  cbn [glob]. destruct (LABEL_MAP (glob w)) as [d|]; [|by right; exists NameError].
  left. by eexists.
Qed.

(** C5.  On [/classify_image], a request without the [image] file field is
    answered 400 with the body [{"error": "No image provided"}], and the
    world it leaves is the one it found: the log gains no call, so neither
    [preprocess_image] nor [model.predict] ran. *)
Theorem classify_image_no_file files w :
  assoc "image" files = None →
  (classify_image files w).1
    = Ok {| body := PyDict [("error", PyStr "No image provided")]; status := 400 |} ∧
  http_status (classify_image files w).1 = 400%Z ∧
  calls (classify_image files w).2 = calls w ∧
  (classify_image files w).2 = w.
Proof. intros Hf. handler_unfold. by rewrite Hf. Qed.

(** C10.  The check of line 62 is on the truth value of the file: a request
    whose [image] field is present but falsy (a [FileStorage] is falsy
    exactly when its filename is empty) gets the same 400 answer, and again
    no call is logged. *)
Theorem classify_image_falsy_file files f w :
  assoc "image" files = Some f →
  truthy (PyFile f) = false →
  filename f = "" ∧
  (classify_image files w).1
    = Ok {| body := PyDict [("error", PyStr "No image provided")]; status := 400 |} ∧
  http_status (classify_image files w).1 = 400%Z ∧
  calls (classify_image files w).2 = calls w ∧
  (classify_image files w).2 = w.
Proof.
  intros Hf Hfalsy. split.
  - simpl in Hfalsy. apply negb_false_iff in Hfalsy. by apply String.eqb_eq.
  - handler_unfold. rewrite Hf. cbn [from_option]. by rewrite Hfalsy.
Qed.

(** C8.  No request changes the globals: after [/predict] or
    [/classify_image] has handled a request, answered or raised, [model]
    and [LABEL_MAP] are what they were, so the label map has the same
    entries as before. *)
Theorem globals_unchanged req w :
  glob (dispatch req w).2 = glob w ∧
  model (glob (dispatch req w).2) = model (glob w) ∧
  LABEL_MAP (glob (dispatch req w).2) = LABEL_MAP (glob w) ∧
  (∀ d k, LABEL_MAP (glob w) = Some d →
          ∃ d', LABEL_MAP (glob (dispatch req w).2) = Some d' ∧ d' !! k = d !! k).
Proof.
  assert (glob (dispatch req w).2 = glob w) as Hframe.
  { destruct req as [json|files];
      [apply predict_frames|apply classify_image_frames]. }
  rewrite Hframe. split_and!; [done..|].
  intros d k Hd. by exists d.
Qed.

(** C9.  On [/predict], when the JSON body has no [image] member, or has a
    string there that does not start with "data:image", the value fails the
    test of line 25 and goes to the byte-stream branch, whose [.read()]
    raises [AttributeError]; the handler passes the exception on (a 500),
    and on no input at all does it answer anything but 200 or 500.  The
    data-URL branch is taken by strings starting with "data:image" and by
    nothing else, and it splits at the first comma and base64-decodes what
    follows. *)
Theorem predict_malformed_input d w :
  (assoc "image" d = None ∨
   ∃ s, assoc "image" d = Some (PyStr s) ∧ String.prefix "data:image" s = false) →
  (∃ image_data,
     py_get (PyDict d) "image" = Ok image_data ∧
     isinstance_str_startswith image_data "data:image" = None ∧
     preprocess_image image_data default_target_size
       = (file_bytes ← py_read image_data;
          convert_resize_normalise default_target_size (imdecode file_bytes)) ∧
     py_read image_data = Raise AttributeError ∧
     (predict (PyDict d) w).1 = Raise AttributeError ∧
     http_status (predict (PyDict d) w).1 = 500%Z) ∧
  (∀ json w', http_status (predict json w').1 = 200%Z ∨
              http_status (predict json w').1 = 500%Z) ∧
  (∀ data s, isinstance_str_startswith data "data:image" = Some s ↔
             data = PyStr s ∧ String.prefix "data:image" s = true) ∧
  (∀ s target_size, String.prefix "data:image" s = true →
     preprocess_image (PyStr s) target_size
       = ('(header, encoded) ← unpack2 (str_split_1 s ",");
          image_bytes ← b64decode encoded;
          convert_resize_normalise target_size (imdecode image_bytes))).
Proof.
  intros Himage. split_and!.
  - assert (∃ image_data, default PyNone (assoc "image" d) = image_data ∧
              isinstance_str_startswith image_data "data:image" = None ∧
              py_read image_data = Raise AttributeError)
      as (image_data & Hget & Htest & Hread).
    { destruct Himage as [->|(s & -> & Hs)]; eexists; (split; [done|]).
      - done.
      - simpl. by rewrite Hs. }
    assert (preprocess_image image_data default_target_size = Raise AttributeError)
      as Hraise.
    { by rewrite preprocess_image_branches, Htest, Hread. }
    exists image_data. split_and!.
    + simpl. by rewrite Hget.
    + done.
    + by rewrite preprocess_image_branches, Htest.
    + done.
    + handler_unfold. cbn [py_get]. by rewrite Hget, Hraise.
    + handler_unfold. cbn [py_get]. by rewrite Hget, Hraise.
  - intros json w'.
    destruct (predict_outcome json w') as [[letter ->]|[e ->]]; [by left|by right].
  - intros data s. split.
    + destruct data; simpl; try done.
      destruct (String.prefix _ _) eqn:Hs; [|done]. by intros [= ->].
    + intros [-> Hs]. simpl. by rewrite Hs.
  - intros s target_size Hs.
    rewrite preprocess_image_branches. simpl. by rewrite Hs.
Qed.
End request_claims.

Lemma classify_image_no_file_witness :
  (classify_image [("photo", pixel_upload)] fresh_world).1
    = Ok {| body := PyDict [("error", PyStr "No image provided")]; status := 400 |} ∧
  http_status (classify_image [("photo", pixel_upload)] fresh_world).1 = 400%Z ∧
  calls (classify_image [("photo", pixel_upload)] fresh_world).2 = calls fresh_world ∧
  (classify_image [("photo", pixel_upload)] fresh_world).2 = fresh_world.
Proof. apply (classify_image_no_file [("photo", pixel_upload)] fresh_world). reflexivity. Defined.

Lemma classify_image_falsy_file_witness :
  filename unnamed_upload = "" ∧
  (classify_image [("image", unnamed_upload)] (started_world (one_hot 26 0))).1
    = Ok {| body := PyDict [("error", PyStr "No image provided")]; status := 400 |} ∧
  http_status (classify_image [("image", unnamed_upload)] (started_world (one_hot 26 0))).1 = 400%Z ∧
  calls (classify_image [("image", unnamed_upload)] (started_world (one_hot 26 0))).2
    = calls (started_world (one_hot 26 0)) ∧
  (classify_image [("image", unnamed_upload)] (started_world (one_hot 26 0))).2
    = started_world (one_hot 26 0).
Proof.
  apply (classify_image_falsy_file [("image", unnamed_upload)] unnamed_upload).
  - reflexivity.
  - reflexivity.
Defined.

Lemma predict_malformed_input_witness :
  (∃ image_data,
     py_get (PyDict [("image", PyStr "hello")]) "image" = Ok image_data ∧
     isinstance_str_startswith image_data "data:image" = None ∧
     preprocess_image image_data default_target_size
       = (file_bytes ← py_read image_data;
          convert_resize_normalise default_target_size (imdecode file_bytes)) ∧
     py_read image_data = Raise AttributeError ∧
     (predict (PyDict [("image", PyStr "hello")]) fresh_world).1 = Raise AttributeError ∧
     http_status (predict (PyDict [("image", PyStr "hello")]) fresh_world).1 = 500%Z) ∧
  (∀ json w', http_status (predict json w').1 = 200%Z ∨
              http_status (predict json w').1 = 500%Z) ∧
  (∀ data s, isinstance_str_startswith data "data:image" = Some s ↔
             data = PyStr s ∧ String.prefix "data:image" s = true) ∧
  (∀ s target_size, String.prefix "data:image" s = true →
     preprocess_image (PyStr s) target_size
       = ('(header, encoded) ← unpack2 (str_split_1 s ",");
          image_bytes ← b64decode encoded;
          convert_resize_normalise target_size (imdecode image_bytes))).
Proof.
  apply (predict_malformed_input [("image", PyStr "hello")] fresh_world).
  right. exists "hello". split; reflexivity.
Defined.

(** * Further properties *)

(** ** More of the order of binary64 *)

Lemma lex_compare_Lt (e1 e2 : Z) (m1 m2 : positive) :
  match (e1 ?= e2)%Z with
  | Eq => Pos.compare_cont Eq m1 m2
  | Lt => Lt
  | Gt => Gt
  end = Lt ↔ (e1 < e2 ∨ e1 = e2 ∧ Z.pos m1 < Z.pos m2)%Z.
Proof.
  change (Pos.compare_cont Eq m1 m2) with (m1 ?= m2)%positive.
  destruct (Z.compare_spec e1 e2), (Pos.compare_spec m1 m2); split; try done; lia.
Qed.

Lemma lex_compare_Gt (e1 e2 : Z) (m1 m2 : positive) :
  match (e1 ?= e2)%Z with
  | Eq => Pos.compare_cont Eq m1 m2
  | Lt => Lt
  | Gt => Gt
  end = Gt ↔ (e2 < e1 ∨ e1 = e2 ∧ Z.pos m2 < Z.pos m1)%Z.
Proof.
  change (Pos.compare_cont Eq m1 m2) with (m1 ?= m2)%positive.
  destruct (Z.compare_spec e1 e2), (Pos.compare_spec m1 m2); split; try done; lia.
Qed.

Lemma lex_compare_Eq (e1 e2 : Z) (m1 m2 : positive) :
  match (e1 ?= e2)%Z with
  | Eq => Pos.compare_cont Eq m1 m2
  | Lt => Lt
  | Gt => Gt
  end = Eq ↔ e1 = e2 ∧ m1 = m2.
Proof.
  change (Pos.compare_cont Eq m1 m2) with (m1 ?= m2)%positive.
  destruct (Z.compare_spec e1 e2), (Pos.compare_spec m1 m2); split; try done;
    intros []; lia.
Qed.

Lemma lex_compare_opp_Lt (e1 e2 : Z) (m1 m2 : positive) :
  match (e1 ?= e2)%Z with
  | Eq => CompOpp (Pos.compare_cont Eq m1 m2)
  | Lt => Gt
  | Gt => Lt
  end = Lt ↔ (e2 < e1 ∨ e1 = e2 ∧ Z.pos m2 < Z.pos m1)%Z.
Proof.
  change (Pos.compare_cont Eq m1 m2) with (m1 ?= m2)%positive.
  destruct (Z.compare_spec e1 e2), (Pos.compare_spec m1 m2); split; try done; lia.
Qed.

Lemma lex_compare_opp_Eq (e1 e2 : Z) (m1 m2 : positive) :
  match (e1 ?= e2)%Z with
  | Eq => CompOpp (Pos.compare_cont Eq m1 m2)
  | Lt => Gt
  | Gt => Lt
  end = Eq ↔ e1 = e2 ∧ m1 = m2.
Proof.
  change (Pos.compare_cont Eq m1 m2) with (m1 ?= m2)%positive.
  destruct (Z.compare_spec e1 e2), (Pos.compare_spec m1 m2); split; try done;
    intros []; lia.
Qed.

Lemma SFcompare_Lt_trans (x y z : spec_float) :
  SFcompare x y = Some Lt → SFcompare y z = Some Lt → SFcompare x z = Some Lt.
Proof.
  destruct x as [[]| []| |[] m1 e1], y as [[]| []| |[] m2 e2],
           z as [[]| []| |[] m3 e3]; simpl; try done.
  all: intros [= H1] [= H2]; f_equal.
  all: first [ apply lex_compare_Lt; apply lex_compare_Lt in H1, H2; lia
             | apply lex_compare_opp_Lt; apply lex_compare_opp_Lt in H1, H2; lia ].
Qed.

Lemma SFcompare_Eq_l (x y z : spec_float) :
  SFcompare x y = Some Eq → SFcompare y z = SFcompare x z.
Proof.
  destruct x as [[]| []| |[] m1 e1], y as [[]| []| |[] m2 e2]; simpl; try done.
  all: try by destruct z as [[]| []| |[] m3 e3].
  all: intros [= H1].
  all: first [ apply lex_compare_Eq in H1 as [-> ->]
             | apply lex_compare_opp_Eq in H1 as [-> ->] ]; done.
Qed.

Lemma SFcompare_total (x y : spec_float) :
  SFcompare x x = Some Eq → SFcompare y y = Some Eq → is_Some (SFcompare x y).
Proof. destruct x as [[]| []| |[] m1 e1], y as [[]| []| |[] m2 e2]; simpl; by eauto. Qed.

Section float_total_order.
Implicit Types x y z : float.
Local Open Scope float_scope.

Lemma not_nan_eqb x : is_nan x = false → SFcompare (Prim2SF x) (Prim2SF x) = Some Eq.
Proof.
  unfold is_nan. rewrite FloatAxioms.eqb_spec. unfold SFeqb.
  by destruct (SFcompare _ _) as [[]|].
Qed.

Lemma leb_refl x : is_nan x = false → (x <=? x) = true.
Proof.
  intros H. rewrite FloatAxioms.leb_spec. unfold SFleb. by rewrite (not_nan_eqb x H).
Qed.

Lemma not_leb_ltb x y :
  is_nan x = false → is_nan y = false → (x <=? y) = false → (y <? x) = true.
Proof.
  intros Hx%not_nan_eqb Hy%not_nan_eqb.
  rewrite FloatAxioms.leb_spec, FloatAxioms.ltb_spec. unfold SFleb, SFltb.
  rewrite (SFcompare_antisym (Prim2SF x) (Prim2SF y)).
  destruct (SFcompare_total _ _ Hx Hy) as [c ->]. by destruct c.
Qed.

Lemma leb_ltb_trans x y z : (x <=? y) = true → (y <? z) = true → (x <? z) = true.
Proof.
  rewrite FloatAxioms.leb_spec, !FloatAxioms.ltb_spec. unfold SFleb, SFltb.
  destruct (SFcompare (Prim2SF x) (Prim2SF y)) as [[]|] eqn:Hxy; try done; intros _.
  - by rewrite (SFcompare_Eq_l _ _ _ Hxy).
  - destruct (SFcompare (Prim2SF y) (Prim2SF z)) as [[]|] eqn:Hyz; try done.
    by rewrite (SFcompare_Lt_trans _ _ _ Hxy Hyz).
Qed.

Lemma nan_not_leb x y : is_nan x = true → (x <=? y) = false.
Proof.
  intros Hx. destruct (x <=? y) eqn:H; [|done].
  apply leb_not_nan in H. congruence.
Qed.
End float_total_order.

(** ** More of [np.argmax] *)

Lemma argmax_loop_bound ip i mp max_ind :
  max_ind < i → argmax_loop ip i mp max_ind < i + length ip.
Proof.
  revert i mp max_ind. induction ip as [|x ip IH]; intros i mp max_ind Hlt; simpl.
  - lia.
  - destruct (negb _); [destruct (PrimFloat.is_nan x)|].
    + lia.
    + specialize (IH (S i) x i). lia.
    + specialize (IH (S i) mp max_ind). lia.
Qed.

Lemma np_argmax_bound (a : list (list float)) k :
  np_argmax a = Ok k → k < length (concat a).
Proof.
  unfold np_argmax. destruct (concat a) as [|mp ip]; [done|]. intros [= <-].
  destruct (PrimFloat.is_nan mp); simpl; [lia|].
  pose proof (argmax_loop_bound ip 1 mp 0). lia.
Qed.

Lemma np_argmax_empty (a : list (list float)) :
  concat a = [] → np_argmax a = Raise ValueError.
Proof. unfold np_argmax. by intros ->. Qed.

Lemma np_argmax_nonempty (a : list (list float)) :
  concat a ≠ [] → ∃ k, np_argmax a = Ok k.
Proof. unfold np_argmax. destruct (concat a); [done|]. by eexists. Qed.

(** The scan keeps a maximum of what it has seen, at its first occurrence. *)
Lemma argmax_loop_max (pre ip : list float) mp max_ind :
  pre !! max_ind = Some mp →
  Forall (λ x, PrimFloat.is_nan x = false) (pre ++ ip)%list →
  Forall (λ x, (x <=? mp)%float = true) pre →
  (∀ j x, j < max_ind → pre !! j = Some x → (x <? mp)%float = true) →
  ∃ m, (pre ++ ip)%list !! argmax_loop ip (length pre) mp max_ind = Some m ∧
       Forall (λ x, (x <=? m)%float = true) (pre ++ ip)%list ∧
       ∀ j x, j < argmax_loop ip (length pre) mp max_ind →
              (pre ++ ip)%list !! j = Some x → (x <? m)%float = true.
Proof.
  revert pre mp max_ind.
  induction ip as [|x ip IH]; intros pre mp max_ind Hmp Hnan Hle Hlt.
  - simpl. rewrite app_nil_r. by exists mp.
  - assert (max_ind < length pre) as Hind by by eapply lookup_lt_Some.
    assert (PrimFloat.is_nan mp = false) as Hmpn.
    { apply Forall_app in Hnan as [Hnan _].
      by apply (Forall_lookup_1 _ _ _ _ Hnan Hmp). }
    assert (PrimFloat.is_nan x = false) as Hxn.
    { apply Forall_app in Hnan as [_ Hnan]. by apply Forall_cons in Hnan as [? _]. }
    rewrite (cons_middle x pre ip), (assoc_L (++)) in Hnan |- *.
    cbn [argmax_loop].
    replace (S (length pre)) with (length (pre ++ [x])%list)
      by (rewrite length_app; simpl; lia).
    destruct (x <=? mp)%float eqn:Hx; cbn [negb].
    + apply IH; [by rewrite lookup_app_l|done| |].
      * apply Forall_app. split; [done|]. by constructor.
      * intros j y Hj. rewrite lookup_app_l by lia. by apply Hlt.
    + rewrite Hxn.
      assert ((mp <? x)%float = true) as Hmx by by apply not_leb_ltb.
      apply IH; [by rewrite lookup_app_r, Nat.sub_diag by lia|done| |].
      * apply Forall_app. split.
        -- eapply Forall_impl; [exact Hle|]. intros y Hy. simpl.
           apply ltb_leb. exact (leb_ltb_trans y mp x Hy Hmx).
        -- constructor; [by apply leb_refl|done].
      * intros j y Hj. rewrite lookup_app_l by lia. intros Hy.
        eapply leb_ltb_trans; [|exact Hmx].
        by apply (Forall_lookup_1 _ _ _ _ Hle Hy).
Qed.

Lemma np_argmax_max (a : list (list float)) :
  concat a ≠ [] →
  Forall (λ x, PrimFloat.is_nan x = false) (concat a) →
  ∃ k m, np_argmax a = Ok k ∧ concat a !! k = Some m ∧
         Forall (λ x, (x <=? m)%float = true) (concat a) ∧
         ∀ j x, j < k → concat a !! j = Some x → (x <? m)%float = true.
Proof.
  intros Hne Hnan. unfold np_argmax.
  destruct (concat a) as [|mp ip]; [done|].
  assert (PrimFloat.is_nan mp = false) as Hmp by by apply Forall_cons in Hnan as [? _].
  rewrite Hmp.
  destruct (argmax_loop_max [mp] ip mp 0) as (m & Hm & Hle & Hlt); try done.
  - constructor; [by apply leb_refl|done].
  - lia.
  - by exists (argmax_loop ip 1 mp 0), m.
Qed.

(** A NaN stops the scan at its first occurrence. *)
Lemma argmax_loop_nan (ok post : list float) x i mp max_ind :
  Forall (λ y, PrimFloat.is_nan y = false) ok →
  PrimFloat.is_nan x = true →
  argmax_loop (ok ++ x :: post)%list i mp max_ind = i + length ok.
Proof.
  intros Hok Hx. revert i mp max_ind.
  induction Hok as [|y ok Hy _ IH]; intros i mp max_ind; simpl.
  - rewrite (nan_not_leb _ _ Hx), Hx. simpl. lia.
  - destruct (negb _); rewrite ?Hy, IH; lia.
Qed.

Lemma np_argmax_nan (a : list (list float)) ok x post :
  concat a = (ok ++ x :: post)%list →
  Forall (λ y, PrimFloat.is_nan y = false) ok →
  PrimFloat.is_nan x = true →
  np_argmax a = Ok (length ok).
Proof.
  intros Ha Hok Hx. unfold np_argmax. rewrite Ha.
  destruct Hok as [|y ok Hy Hok]; simpl.
  - by rewrite Hx.
  - by rewrite Hy, (argmax_loop_nan ok post x 1 y 0 Hok Hx).
Qed.

(** ** Startup *)

Section startup.
Context `{!Keras}.

(** X1.  When [load_model] succeeds, both globals are assigned, whatever
    they held before, and the log is untouched; the label map has 26
    entries, maps every [k] from 0 to 25 to the letter with code
    [65 + k], and has no entry for any other integer, negative ones
    included. *)
Theorem load_model_label_map dirname w0 w :
  load_model dirname w0 = (Ok (), w) →
  ∃ m d,
    model (glob w) = Some m ∧ LABEL_MAP (glob w) = Some d ∧ calls w = calls w0 ∧
    size d = 26 ∧
    ∀ k : Z, d !! k = if decide (0 ≤ k ≤ 25)%Z
                      then Some (String (ascii_of_nat (65 + Z.to_nat k)) "")
                      else None.
Proof.
  intros Hload. destruct (load_model_started _ _ _ Hload) as (m & Hglob & Hcalls).
  exists m, (dict_comprehension (enumerate (str_iter ascii_uppercase))).
  rewrite Hglob. split_and!; [done..| |].
  - by vm_compute.
  - intros k. rewrite dict_comprehension_enumerate.
    repeat case_decide; try lia.
    + apply ascii_uppercase_lookup. lia.
    + apply lookup_ge_None. rewrite ascii_uppercase_length. lia.
    + done.
Qed.

(** X2.  When [load_model] raises, it raises before either global is
    assigned: the world is the one it started from, so [LABEL_MAP] is never
    set without [model]. *)
Theorem load_model_failure dirname w0 e :
  (load_model dirname w0).1 = Raise e →
  (load_model dirname w0).2 = w0.
Proof.
  handler_unfold. by destruct (keras_load_model _).
Qed.
End startup.

Lemma load_model_label_map_witness :
  ∃ m d,
    model (glob (started_world (one_hot 26 0))) = Some m ∧
    LABEL_MAP (glob (started_world (one_hot 26 0))) = Some d ∧
    calls (started_world (one_hot 26 0)) = calls fresh_world ∧
    size d = 26 ∧
    ∀ k : Z, d !! k = if decide (0 ≤ k ≤ 25)%Z
                      then Some (String (ascii_of_nat (65 + Z.to_nat k)) "")
                      else None.
Proof.
  apply (@load_model_label_map (stub_keras (stub_model (one_hot 26 0)))
           "/srv/app" fresh_world).
  reflexivity.
Defined.

Lemma load_model_failure_witness :
  (@load_model missing_keras "/srv/app" fresh_world).2 = fresh_world.
Proof.
  apply (@load_model_failure missing_keras "/srv/app" fresh_world OSError).
  reflexivity.
Defined.

(** ** More of [preprocess_image] *)

Lemma split_first_None (sep : ascii) (s : string) :
  sep ∉ list_ascii_of_string s → split_first sep s = None.
Proof.
  induction s as [|c s IH]; simpl; [done|]. intros [Hne Hin]%not_elem_of_cons.
  destruct (Ascii.eqb_spec c sep) as [->|_]; [done|]. by rewrite IH.
Qed.

Section more_preprocessing.
Context `{!Base64, !OpenCV}.

(** A data URL: what follows the first comma is decoded, the header only
    has to start with the marker. *)
Lemma preprocess_image_data_url header payload target_size :
  String.prefix "data:image" header = true →
  ","%char ∉ list_ascii_of_string header →
  preprocess_image (PyStr (header ++ "," ++ payload)) target_size
  = (image_bytes ← b64decode payload;
     convert_resize_normalise target_size (imdecode image_bytes)).
Proof.
  intros Hpre Hcomma. rewrite preprocess_image_branches.
  unfold isinstance_str_startswith, str_split_1.
  change ("," ++ payload) with (String "," payload).
  by rewrite (prefix_app _ _ _ Hpre), (split_first_app _ _ _ Hcomma).
Qed.

(** X3.  A string that starts with "data:image" but holds no comma cannot
    be split into header and payload: the unpacking of line 26 raises
    [ValueError], whatever the rest of the string is. *)
Theorem preprocess_image_no_comma s target_size :
  String.prefix "data:image" s = true →
  ","%char ∉ list_ascii_of_string s →
  preprocess_image (PyStr s) target_size = Raise ValueError.
Proof.
  intros Hpre Hcomma. rewrite preprocess_image_branches.
  unfold isinstance_str_startswith, str_split_1.
  by rewrite Hpre, (split_first_None _ _ Hcomma).
Qed.

(** X4.  When the payload of a data URL is not valid base64, the exception
    of [b64decode] is what [preprocess_image] raises. *)
Theorem preprocess_image_bad_payload header payload e target_size :
  String.prefix "data:image" header = true →
  ","%char ∉ list_ascii_of_string header →
  b64decode payload = Raise e →
  preprocess_image (PyStr (header ++ "," ++ payload)) target_size = Raise e.
Proof.
  intros Hpre Hcomma Hdec.
  by rewrite (preprocess_image_data_url _ _ _ Hpre Hcomma), Hdec.
Qed.

(** X5.  Anything that is neither a string starting with "data:image" nor
    an upload (a number, a list, a dict, a boolean, [None], another
    string) has no [read] method: [preprocess_image] raises
    [AttributeError]. *)
Theorem preprocess_image_no_read data target_size :
  isinstance_str_startswith data "data:image" = None →
  (∀ f, data ≠ PyFile f) →
  preprocess_image data target_size = Raise AttributeError.
Proof.
  intros Htest Hfile. rewrite preprocess_image_branches, Htest.
  destruct data; try done. by destruct (Hfile f).
Qed.

(** X6.  The header of a data URL is thrown away: two data URLs with the
    same payload give the same result, whatever media type or encoding
    their headers name (the payload is base64-decoded even when the header
    does not say base64). *)
Theorem preprocess_image_header_ignored header1 header2 payload target_size :
  String.prefix "data:image" header1 = true →
  ","%char ∉ list_ascii_of_string header1 →
  String.prefix "data:image" header2 = true →
  ","%char ∉ list_ascii_of_string header2 →
  preprocess_image (PyStr (header1 ++ "," ++ payload)) target_size
  = preprocess_image (PyStr (header2 ++ "," ++ payload)) target_size.
Proof.
  intros H1 C1 H2 C2.
  by rewrite (preprocess_image_data_url _ _ _ H1 C1),
             (preprocess_image_data_url _ _ _ H2 C2).
Qed.


(** X8.  The channels are reversed before anything else: for a decodable
    image, what is resized and normalised is the image with every pixel
    (B, G, R) turned into (R, G, B). *)
Theorem preprocess_image_rgb data bs img target_size :
  carries data bs → imdecode bs = Some img →
  preprocess_image data target_size
  = (resized ← resize (map (map reverse) img) target_size;
     mret (expand_dims_0 (np_divide resized 255))).
Proof.
  intros Hc Himg.
  destruct (imdecode_color _ _ Himg) as (h & w & Hh & Hw & Hshape).
  rewrite (preprocess_image_carries _ _ _ Hc), Himg.
  by rewrite (cvtColor_reverse img h w Hh Hw Hshape).
Qed.
End more_preprocessing.

(** X9.  Normalisation keeps the order of pixel values: a smaller [uint8]
    value gives a strictly smaller float, so distinct values stay distinct;
    the least value, 0, gives exactly 0.0 and the greatest, 255, exactly
    1.0. *)
Theorem normalise_monotone (u v : byte) :
  (Z_of_byte u < Z_of_byte v)%Z →
  (float_of_byte u / 255 <? float_of_byte v / 255)%float = true ∧
  (float_of_byte x00 / 255)%float = 0%float ∧
  (float_of_byte xff / 255)%float = 1%float.
Proof.
  intros Huv. split; [|by vm_compute].
  assert (∀ u v, implb (Z_of_byte u <? Z_of_byte v)%Z
                       (float_of_byte u / 255 <? float_of_byte v / 255)%float = true) as H.
  { apply byte2_cases. vm_compute. reflexivity. }
  specialize (H u v). apply Z.ltb_lt in Huv. by rewrite Huv in H.
Qed.

Lemma preprocess_image_no_comma_witness :
  preprocess_image (PyStr "data:image/png;base64") default_target_size = Raise ValueError.
Proof.
  apply (preprocess_image_no_comma "data:image/png;base64").
  - reflexivity.
  - refine (bool_decide_unpack _ _). vm_compute. exact I.
Defined.

Lemma preprocess_image_bad_payload_witness :
  preprocess_image (PyStr ("data:image/png;base64" ++ "," ++ "A")) default_target_size
  = Raise binascii_Error.
Proof.
  apply (preprocess_image_bad_payload "data:image/png;base64" "A").
  - reflexivity.
  - refine (bool_decide_unpack _ _). vm_compute. exact I.
  - reflexivity.
Defined.

Lemma preprocess_image_no_read_witness :
  preprocess_image (PyList [PyInt 1; PyInt 2]) default_target_size = Raise AttributeError.
Proof.
  apply (preprocess_image_no_read (PyList [PyInt 1; PyInt 2])).
  - reflexivity.
  - discriminate.
Defined.

Lemma preprocess_image_header_ignored_witness :
  preprocess_image (PyStr ("data:image/png;base64" ++ "," ++ "AQEKFB4=")) default_target_size
  = preprocess_image (PyStr ("data:image/jpeg" ++ "," ++ "AQEKFB4=")) default_target_size.
Proof.
  apply (preprocess_image_header_ignored "data:image/png;base64" "data:image/jpeg").
  - reflexivity.
  - refine (bool_decide_unpack _ _). vm_compute. exact I.
  - reflexivity.
  - refine (bool_decide_unpack _ _). vm_compute. exact I.
Defined.


Lemma preprocess_image_rgb_witness :
  preprocess_image (PyFile {| filename := "blue.raw"; stream := blue_pixel_bytes |})
                   default_target_size
  = (resized ← resize (map (map reverse) [[[xff; x00; x00]]]) default_target_size;
     mret (expand_dims_0 (np_divide resized 255))).
Proof.
  apply (preprocess_image_rgb (PyFile {| filename := "blue.raw"; stream := blue_pixel_bytes |})
           blue_pixel_bytes).
  - exact (carries_upload {| filename := "blue.raw"; stream := blue_pixel_bytes |}).
  - reflexivity.
Defined.

Lemma normalise_monotone_witness :
  (float_of_byte x7f / 255 <? float_of_byte x80 / 255)%float = true ∧
  (float_of_byte x00 / 255)%float = 0%float ∧
  (float_of_byte xff / 255)%float = 1%float.
Proof. apply (normalise_monotone x7f x80). by vm_compute. Defined.

(** ** More of the handlers *)

Section more_requests.
Context `{!Base64, !OpenCV}.

(** The answer of a request that hands [data] to [preprocess_image]. *)
Lemma dispatch_submits req data w :
  submits req data →
  (dispatch req w).1
  = (img ← preprocess_image data default_target_size; infer_label (glob w) img).
Proof.
  intros Hsub. unfold infer_label.
  destruct Hsub as [json image_data Hget|files f Hf Htruthy]; handler_unfold.
  - rewrite Hget.
    destruct (preprocess_image image_data default_target_size) as [img|e]; [|done].
    cbn. destruct (model (glob w)) as [m|]; [|done]. cbn.
    destruct (model_predict m img) as [preds|e]; [|done]. cbn.
    destruct (np_argmax preds) as [index|e]; [|done]. cbn.
    by destruct (LABEL_MAP (glob w)).
  - rewrite Hf. cbn [from_option]. rewrite Htruthy. cbn [negb].
    destruct (preprocess_image (PyFile f) default_target_size) as [img|e]; [|done].
    cbn. destruct (model (glob w)) as [m|]; [|done]. cbn.
    destruct (model_predict m img) as [preds|e]; [|done]. cbn.
    destruct (np_argmax preds) as [index|e]; [|done]. cbn.
    by destruct (LABEL_MAP (glob w)).
Qed.

(** What a request answers when [model] was never assigned. *)
Lemma dispatch_no_model req data img w :
  submits req data →
  preprocess_image data default_target_size = Ok img →
  model (glob w) = None →
  dispatch req w
  = (Raise NameError,
     {| glob := glob w; calls := (calls w ++ [call_preprocess_image data])%list |}).
Proof.
  intros Hsub Himg Hm.
  destruct Hsub as [json image_data Hget|files f Hf Htruthy]; handler_unfold.
  - rewrite Hget, Himg. cbn [glob]. by rewrite Hm.
  - rewrite Hf. cbn [from_option]. rewrite Htruthy, Himg. cbn [glob negb].
    by rewrite Hm.
Qed.

(** A request either hands something to [preprocess_image] or is settled
    before: a body without [get] on [/predict], a missing or falsy file on
    [/classify_image]. *)
Lemma dispatch_cases req w :
  (∃ data, submits req data) ∨
  (∃ json, req = POST_predict json ∧ py_get json "image" = Raise AttributeError ∧
           dispatch req w = (Raise AttributeError, w)) ∨
  (∃ files, req = POST_classify_image files ∧
            truthy (from_option PyFile PyNone (assoc "image" files)) = false ∧
            dispatch req w
            = (Ok (with_status (jsonify [("error", PyStr "No image provided")]) 400), w)).
Proof.
  destruct req as [json|files].
  - destruct (py_get json "image") as [image_data|e] eqn:Hget.
    + left. exists image_data. by constructor.
    + right; left. exists json.
      assert (e = AttributeError) as -> by (destruct json; simpl in Hget; congruence).
      split_and!; [done..|]. handler_unfold. by rewrite Hget.
  - destruct (assoc "image" files) as [f|] eqn:Hf.
    + destruct (truthy (PyFile f)) eqn:Htruthy.
      * left. exists (PyFile f). by constructor.
      * right; right. exists files. split_and!; [done|by rewrite Hf|].
        handler_unfold. rewrite Hf. cbn [from_option]. by rewrite Htruthy.
    + right; right. exists files. split_and!; [done|by rewrite Hf|].
      handler_unfold. by rewrite Hf.
Qed.

(** X10.  A request handled before [load_model] has run (the globals are
    only assigned under [__main__]) gets as far as preprocessing: the image
    is decoded and normalised, then the lookup of [model] raises
    [NameError], and the network is not called. *)
Theorem request_before_startup req data img w :
  submits req data →
  preprocess_image data default_target_size = Ok img →
  model (glob w) = None →
  (dispatch req w).1 = Raise NameError ∧
  http_status (dispatch req w).1 = 500%Z ∧
  calls (dispatch req w).2 = (calls w ++ [call_preprocess_image data])%list.
Proof.
  intros Hsub Himg Hm. by rewrite (dispatch_no_model req data img w Hsub Himg Hm).
Qed.

(** X11.  A request whose image cannot be preprocessed, for whatever
    reason, raises the exception of [preprocess_image] (a 500): the call is
    logged, the network is not called, the globals are not read. *)
Theorem request_preprocess_error req data w e :
  submits req data →
  preprocess_image data default_target_size = Raise e →
  (dispatch req w).1 = Raise e ∧
  http_status (dispatch req w).1 = 500%Z ∧
  calls (dispatch req w).2 = (calls w ++ [call_preprocess_image data])%list.
Proof.
  intros Hsub Himg. by rewrite (dispatch_preprocess_error req data w e Hsub Himg).
Qed.

(** X12.  When the network returns no score at all (an empty array),
    [np.argmax] raises [ValueError] and so does the request: no label is
    made up. *)
Theorem request_empty_scores req data img m preds w :
  submits req data →
  preprocess_image data default_target_size = Ok img →
  model (glob w) = Some m →
  model_predict m img = Ok preds →
  concat preds = [] →
  (dispatch req w).1 = Raise ValueError.
Proof.
  intros Hsub Himg Hm Hpreds Hempty.
  rewrite (dispatch_submits req data w Hsub), Himg. unfold infer_label. simpl.
  rewrite Hm. simpl. rewrite Hpreds. simpl. by rewrite (np_argmax_empty _ Hempty).
Qed.



(** X14.  A request logs nothing, or one call of [preprocess_image], or
    that call followed by one call of [model.predict] on the tensor it
    returned: the network is never called without a successful
    preprocessing, and neither is called twice. *)
Theorem call_discipline req w :
  calls (dispatch req w).2 = calls w ∨
  (∃ data, submits req data ∧
     calls (dispatch req w).2 = (calls w ++ [call_preprocess_image data])%list) ∨
  (∃ data img, submits req data ∧
     preprocess_image data default_target_size = Ok img ∧
     calls (dispatch req w).2
     = (calls w ++ [call_preprocess_image data; call_model_predict img])%list).
Proof.
  destruct (dispatch_cases req w)
    as [[data Hdata]|[(json & -> & Hget & ->)|(files & -> & Hfalsy & ->)]];
    [|by left..].
  right.
  destruct (preprocess_image data default_target_size) as [img|e] eqn:Himg.
  - destruct (model (glob w)) as [m|] eqn:Hm.
    + right. exists data, img. split_and!; [done..|].
      destruct Hdata as [json image_data Hget|files f Hf Htruthy]; handler_unfold.
      * rewrite Hget, Himg. cbn [glob]. rewrite Hm.
        destruct (model_predict m img) as [preds|];
          [destruct (np_argmax preds) as [index|];
             [cbn [glob]; destruct (LABEL_MAP (glob w))|]|];
          cbn; by rewrite <-app_assoc.
      * rewrite Hf. cbn [from_option]. rewrite Htruthy, Himg. cbn [glob negb].
        rewrite Hm.
        destruct (model_predict m img) as [preds|];
          [destruct (np_argmax preds) as [index|];
             [cbn [glob]; destruct (LABEL_MAP (glob w))|]|];
          cbn; by rewrite <-app_assoc.
    + left. exists data. split; [done|].
      by rewrite (dispatch_no_model req data img w Hdata Himg Hm).
  - left. exists data. split; [done|].
    by rewrite (dispatch_preprocess_error req data w e Hdata Himg).
Qed.
End more_requests.

Section more_labels.
Context `{!Base64, !OpenCV}.

(** What a request answers once the network has returned its scores. *)
Lemma dispatch_scores req data w m d img preds :
  submits req data →
  preprocess_image data default_target_size = Ok img →
  model (glob w) = Some m → LABEL_MAP (glob w) = Some d →
  model_predict m img = Ok preds →
  (dispatch req w).1
  = (index ← np_argmax preds;
     mret (jsonify [("prediction", PyStr (default "?" (d !! Z.of_nat index)))])).
Proof.
  intros Hsub Himg Hm Hd Hpreds.
  rewrite (dispatch_submits req data w Hsub), Himg. unfold infer_label. cbn.
  rewrite Hm. cbn. rewrite Hpreds. cbn. rewrite Hd.
  by destruct (np_argmax preds).
Qed.

(** X15.  After startup, a network with at most 26 outputs never gets the
    sentinel: whatever its (non-empty) scores are, the answer is one of the
    letters "A" to "Z". *)
Theorem label_is_a_letter `{!Keras} dirname w0 w req data img m preds :
  load_model dirname w0 = (Ok (), w) →
  submits req data →
  preprocess_image data default_target_size = Ok img →
  model (glob w) = Some m →
  model_predict m img = Ok preds →
  concat preds ≠ [] →
  (length (concat preds) ≤ 26)%nat →
  ∃ i, (i ≤ 25)%nat ∧
       (dispatch req w).1
       = Ok (jsonify [("prediction", PyStr (String (ascii_of_nat (65 + i)) ""))]).
Proof.
  intros Hload Hsub Himg Hm Hpreds Hne Hlen.
  destruct (load_model_started _ _ _ Hload) as (m' & Hglob & _).
  destruct (np_argmax_nonempty preds Hne) as [k Hk].
  pose proof (np_argmax_bound preds k Hk) as Hbound.
  exists k. split; [lia|].
  rewrite (dispatch_scores req data w m _ img preds Hsub Himg Hm
             (f_equal LABEL_MAP Hglob) Hpreds), Hk.
  cbn [mbind result_bind mret result_ret LABEL_MAP].
  rewrite dict_comprehension_enumerate. case_decide; [|lia].
  rewrite Nat2Z.id, ascii_uppercase_lookup by lia. done.
Qed.

(** X16.  When the scores hold no NaN, the label returned is that of an
    index [k] whose score is a maximum (no score exceeds it) and is
    strictly above every score before it. *)
Theorem label_of_a_maximum w req data img m d preds :
  submits req data →
  preprocess_image data default_target_size = Ok img →
  model (glob w) = Some m →
  LABEL_MAP (glob w) = Some d →
  model_predict m img = Ok preds →
  concat preds ≠ [] →
  Forall (λ x, PrimFloat.is_nan x = false) (concat preds) →
  ∃ k score,
    concat preds !! k = Some score ∧
    (∀ j x, concat preds !! j = Some x → (x <=? score)%float = true) ∧
    (∀ j x, j < k → concat preds !! j = Some x → (x <? score)%float = true) ∧
    (dispatch req w).1
    = Ok (jsonify [("prediction", PyStr (default "?" (d !! Z.of_nat k)))]).
Proof.
  intros Hsub Himg Hm Hd Hpreds Hne Hnan.
  destruct (np_argmax_max preds Hne Hnan) as (k & score & Hk & Hscore & Hle & Hlt).
  exists k, score. split_and!; [done| |done|].
  - intros j x Hx. by apply (Forall_lookup_1 _ _ _ _ Hle Hx).
  - by rewrite (dispatch_scores req data w m d img preds Hsub Himg Hm Hd Hpreds), Hk.
Qed.

(** X17.  A NaN among the scores wins: the label returned is that of the
    index of the first NaN, whatever the other scores are, and nothing is
    raised. *)
Theorem label_of_first_nan w req data img m d preds ok x post :
  submits req data →
  preprocess_image data default_target_size = Ok img →
  model (glob w) = Some m →
  LABEL_MAP (glob w) = Some d →
  model_predict m img = Ok preds →
  concat preds = (ok ++ x :: post)%list →
  Forall (λ y, PrimFloat.is_nan y = false) ok →
  PrimFloat.is_nan x = true →
  (dispatch req w).1
  = Ok (jsonify [("prediction", PyStr (default "?" (d !! Z.of_nat (length ok))))]).
Proof.
  intros Hsub Himg Hm Hd Hpreds Hsplit Hok Hx.
  by rewrite (dispatch_scores req data w m d img preds Hsub Himg Hm Hd Hpreds),
             (np_argmax_nan preds ok x post Hsplit Hok Hx).
Qed.

(** X18.  The two endpoints agree: the same bytes sent to [/predict] as a
    data URL and to [/classify_image] as an upload with a filename get the
    same answer, or raise the same exception, from the same globals. *)
Theorem endpoints_agree d files f header w :
  String.prefix "data:image" header = true →
  ","%char ∉ list_ascii_of_string header →
  assoc "image" d = Some (PyStr (header ++ "," ++ b64encode (stream f))) →
  assoc "image" files = Some f →
  truthy (PyFile f) = true →
  (predict (PyDict d) w).1 = (classify_image files w).1.
Proof.
  intros Hpre Hcomma Hd Hf Htruthy.
  change (predict (PyDict d) w) with (dispatch (POST_predict (PyDict d)) w).
  change (classify_image files w) with (dispatch (POST_classify_image files) w).
  rewrite (dispatch_submits _ (PyStr (header ++ "," ++ b64encode (stream f))) w),
          (dispatch_submits _ (PyFile f) w).
  - rewrite (preprocess_image_carries _ (stream f)).
    + by rewrite (preprocess_image_carries (PyFile f) (stream f)) by constructor.
    + constructor; [done..|]. apply b64decode_b64encode.
  - by constructor.
  - constructor. simpl. by rewrite Hd.
Qed.

(** The answer depends on the globals only, not on the log. *)
Lemma dispatch_glob req w w' :
  glob w = glob w' → (dispatch req w).1 = (dispatch req w').1.
Proof.
  intros Hglob.
  destruct (dispatch_cases req w)
    as [[data Hdata]|[(json & -> & Hget & Hrun)|(files & -> & Hfalsy & Hrun)]].
  - by rewrite !(dispatch_submits req data _ Hdata), Hglob.
  - rewrite Hrun.
    destruct (dispatch_cases (POST_predict json) w')
      as [[data Hdata]|[(json' & _ & _ & ->)|(files & ? & _)]]; [|done..].
    inversion Hdata; congruence.
  - rewrite Hrun.
    destruct (dispatch_cases (POST_classify_image files) w')
      as [[data Hdata]|[(json' & ? & _)|(files' & _ & _ & ->)]]; [|done..].
    inversion Hdata as [|? f Hf Htruthy]; subst. rewrite Hf in Hfalsy.
    simpl in Hfalsy, Htruthy. congruence.
Qed.

Lemma after_requests_glob reqs w : glob (after_requests reqs w) = glob w.
Proof.
  revert w. induction reqs as [|r reqs IH]; intros w; [done|].
  unfold after_requests in *. simpl. rewrite IH.
  destruct r; [apply predict_frames|apply classify_image_frames].
Qed.

(** X19.  Requests do not influence each other: however many requests
    were handled before, and whether they were answered or raised, the
    globals are those of the start and a request gets the answer it would
    have got as the first one. *)
Theorem answer_independent_of_history reqs req w :
  glob (after_requests reqs w) = glob w ∧
  (dispatch req (after_requests reqs w)).1 = (dispatch req w).1.
Proof.
  split; [apply after_requests_glob|]. apply dispatch_glob, after_requests_glob.
Qed.

(** X20.  On [/predict], a JSON body that is not an object (an array, a
    string, a number, [null]) has no [get]: the handler raises
    [AttributeError] at line 52, before [preprocess_image] is called. *)
Theorem predict_body_not_object json w :
  (∀ d, json ≠ PyDict d) →
  predict json w = (Raise AttributeError, w).
Proof.
  intros Hjson. handler_unfold. destruct json; try done. by destruct (Hjson d).
Qed.
End more_labels.

Lemma request_before_startup_witness :
  (dispatch (POST_classify_image [("image", pixel_upload)]) fresh_world).1 = Raise NameError ∧
  http_status (dispatch (POST_classify_image [("image", pixel_upload)]) fresh_world).1 = 500%Z ∧
  calls (dispatch (POST_classify_image [("image", pixel_upload)]) fresh_world).2
  = (calls fresh_world ++ [call_preprocess_image (PyFile pixel_upload)])%list.
Proof.
  set (img := match preprocess_image (PyFile pixel_upload) default_target_size with
              | Ok t => t
              | Raise _ => []
              end).
  apply (request_before_startup (POST_classify_image [("image", pixel_upload)])
           (PyFile pixel_upload) img fresh_world).
  - by constructor.
  - vm_compute. reflexivity.
  - reflexivity.
Defined.

Lemma request_preprocess_error_witness :
  (dispatch (POST_classify_image [("image", text_upload)]) fresh_world).1 = Raise cv2_error ∧
  http_status (dispatch (POST_classify_image [("image", text_upload)]) fresh_world).1 = 500%Z ∧
  calls (dispatch (POST_classify_image [("image", text_upload)]) fresh_world).2
  = (calls fresh_world ++ [call_preprocess_image (PyFile text_upload)])%list.
Proof.
  apply (request_preprocess_error (POST_classify_image [("image", text_upload)])
           (PyFile text_upload) fresh_world cv2_error).
  - by constructor.
  - reflexivity.
Defined.

Lemma request_empty_scores_witness :
  (dispatch (POST_classify_image [("image", pixel_upload)]) (started_world [])).1
  = Raise ValueError.
Proof.
  set (img := match preprocess_image (PyFile pixel_upload) default_target_size with
              | Ok t => t
              | Raise _ => []
              end).
  apply (request_empty_scores (POST_classify_image [("image", pixel_upload)])
           (PyFile pixel_upload) img (stub_model []) [[]] (started_world [])).
  - by constructor.
  - vm_compute. reflexivity.
  - reflexivity.
  - reflexivity.
  - reflexivity.
Defined.

Lemma label_is_a_letter_witness :
  ∃ i, (i ≤ 25)%nat ∧
       (dispatch (POST_classify_image [("image", pixel_upload)])
                 (started_world (one_hot 26 25))).1
       = Ok (jsonify [("prediction", PyStr (String (ascii_of_nat (65 + i)) ""))]).
Proof.
  set (img := match preprocess_image (PyFile pixel_upload) default_target_size with
              | Ok t => t
              | Raise _ => []
              end).
  apply (@label_is_a_letter python_base64 reference_cv
           (stub_keras (stub_model (one_hot 26 25)))
           "/srv/app" fresh_world (started_world (one_hot 26 25))
           (POST_classify_image [("image", pixel_upload)])
           (PyFile pixel_upload) img (stub_model (one_hot 26 25)) [one_hot 26 25]).
  - reflexivity.
  - by constructor.
  - vm_compute. reflexivity.
  - reflexivity.
  - reflexivity.
  - discriminate.
  - vm_compute. lia.
Defined.

Lemma label_of_a_maximum_witness :
  ∃ k score,
    concat [[0.25; 0.75; 0.75; 0.5]%float] !! k = Some score ∧
    (∀ j x, concat [[0.25; 0.75; 0.75; 0.5]%float] !! j = Some x →
            (x <=? score)%float = true) ∧
    (∀ j x, j < k → concat [[0.25; 0.75; 0.75; 0.5]%float] !! j = Some x →
            (x <? score)%float = true) ∧
    (dispatch (POST_classify_image [("image", pixel_upload)])
              (started_world [0.25; 0.75; 0.75; 0.5]%float)).1
    = Ok (jsonify [("prediction",
                    PyStr (default "?" (dict_comprehension (enumerate (str_iter ascii_uppercase))
                                          !! Z.of_nat k)))]).
Proof.
  set (img := match preprocess_image (PyFile pixel_upload) default_target_size with
              | Ok t => t
              | Raise _ => []
              end).
  apply (label_of_a_maximum (started_world [0.25; 0.75; 0.75; 0.5]%float)
           (POST_classify_image [("image", pixel_upload)])
           (PyFile pixel_upload) img (stub_model [0.25; 0.75; 0.75; 0.5]%float)).
  - by constructor.
  - vm_compute. reflexivity.
  - reflexivity.
  - reflexivity.
  - reflexivity.
  - discriminate.
  - repeat constructor.
Defined.

Lemma label_of_first_nan_witness :
  (dispatch (POST_classify_image [("image", pixel_upload)])
            (started_world [0.25; nan; 0.75]%float)).1
  = Ok (jsonify [("prediction",
                  PyStr (default "?" (dict_comprehension (enumerate (str_iter ascii_uppercase))
                                        !! Z.of_nat (length [0.25%float]))))]).
Proof.
  set (img := match preprocess_image (PyFile pixel_upload) default_target_size with
              | Ok t => t
              | Raise _ => []
              end).
  apply (label_of_first_nan (started_world [0.25; nan; 0.75]%float)
           (POST_classify_image [("image", pixel_upload)])
           (PyFile pixel_upload) img (stub_model [0.25; nan; 0.75]%float)
           (dict_comprehension (enumerate (str_iter ascii_uppercase)))
           [[0.25; nan; 0.75]%float] [0.25%float] nan [0.75%float]).
  - by constructor.
  - vm_compute. reflexivity.
  - reflexivity.
  - reflexivity.
  - reflexivity.
  - reflexivity.
  - repeat constructor.
  - reflexivity.
Defined.

Lemma endpoints_agree_witness :
  (predict (PyDict [("image", PyStr ("data:image/raw;base64" ++ "," ++ b64encode (stream pixel_upload)))])
           (started_world (one_hot 26 2))).1
  = (classify_image [("image", pixel_upload)] (started_world (one_hot 26 2))).1.
Proof.
  apply (endpoints_agree _ [("image", pixel_upload)] pixel_upload "data:image/raw;base64").
  - reflexivity.
  - refine (bool_decide_unpack _ _). vm_compute. exact I.
  - reflexivity.
  - reflexivity.
  - reflexivity.
Defined.

Lemma predict_body_not_object_witness :
  predict (PyList [PyStr pixel_data_url]) fresh_world = (Raise AttributeError, fresh_world).
Proof. apply (predict_body_not_object (PyList [PyStr pixel_data_url])). discriminate. Defined.
